(** * Q-learning agent of the snake simulator: replay memory, reward shaping,
      checkpoint/training scheduling and action selection (src/qlearn.py).

    The development is a shallow embedding of [qlearn.py].  Python integers
    are [Z]; the NumPy scalars and arrays and the Keras model are external
    collaborators and stay abstract behind the [Backend] interface; the
    methods of [QLearningAgent] are written in a small state-and-exception
    monad over a [World] that holds the agent object, the state of the global
    random generator and the log of calls made to the collaborators. *)

From Stdlib Require Import String Ascii ZArith List Bool Lia Permutation.
From Stdlib Require Import DecimalString.
From Stdlib Require DecimalZ.
Import ListNotations.

Open Scope Z_scope.

(** ** Python exceptions *)

Inductive PyErr : Type :=
| TypeError
| ZeroDivisionError
| IndexError
| ValueError
| AttributeError
| AssertionError.

Inductive result (A : Type) : Type :=
| Ok (a : A)
| Raise (e : PyErr).

Arguments Ok {A} a.
Arguments Raise {A} e.

(** ** External collaborators

    [val] stands for NumPy float scalars, [tensor] for observation arrays,
    [weights] for the parameters of the Keras [Sequential] model.  Nothing is
    assumed about them. *)

Class Backend : Type := {
  val : Type;
  vzero : val;                       (* an entry of [np.zeros] *)
  vofZ : Z -> val;                   (* int promoted to float *)
  vadd : val -> val -> val;
  vmul : val -> val -> val;
  vltb : val -> val -> bool;         (* [<] on floats *)
  tensor : Type;
  expand_dims : tensor -> tensor;    (* [np.expand_dims(inputs, axis=0)] *)
  np_array : tensor -> tensor;       (* [np.array(x)] *)
  zeros : Z -> Z -> tensor;          (* [np.zeros((w, h, 1))] *)
  weights : Type;
  predict : weights -> tensor -> list val;   (* row [0] of [model.predict] *)
  fit : weights -> list tensor -> list (list val) -> weights
}.

(** ** Python list helpers *)

(** [l[0:stop]] with Python's treatment of a negative or too large bound. *)
Definition slice0 {A : Type} (stop : Z) (l : list A) : list A :=
  if stop <? 0
  then firstn (Z.to_nat (Z.max 0 (Z.of_nat (length l) + stop))) l
  else firstn (Z.to_nat stop) l.

(** [l[i] = x] for a non-negative index [i]. *)
Fixpoint setitem {A : Type} (i : nat) (x : A) (l : list A) {struct l}
  : result (list A) :=
  match l, i with
  | [], _ => Raise IndexError
  | _ :: tl, O => Ok (x :: tl)
  | a :: tl, S j =>
      match setitem j x tl with
      | Ok tl' => Ok (a :: tl')
      | Raise e => Raise e
      end
  end.

(** ** [np.random.shuffle]

    The generator decides on a rearrangement of the positions [0 .. n-1]; the
    list is rearranged in place accordingly.  A draw that is not a
    rearrangement of the positions stands for the identity. *)

Definition is_index_perm (p : list nat) (n : nat) : bool :=
  (Nat.eqb (length p) n) && forallb (fun i => existsb (Nat.eqb i) p) (seq 0 n).

Definition item {A : Type} (l : list A) (i : nat) : list A :=
  match nth_error l i with
  | Some x => [x]
  | None => []
  end.

Definition shuffle {A : Type} (p : list nat) (l : list A) : list A :=
  if is_index_perm p (length l) then flat_map (item l) p else l.

(** ** State and exceptions

    A computation runs on a state and ends with a value or with a raised
    exception; as in Python, what was written before the exception stays
    written. *)

Definition M (S A : Type) : Type := S -> result A * S.

Definition ret {S A : Type} (a : A) : M S A := fun s => (Ok a, s).

Definition bind {S A C : Type} (c : M S A) (k : A -> M S C) : M S C :=
  fun s =>
    match c s with
    | (Ok a, s') => k a s'
    | (Raise e, s') => (Raise e, s')
    end.

Definition raise {S A : Type} (e : PyErr) : M S A := fun s => (Raise e, s).

Definition lift {S A : Type} (r : result A) : M S A := fun s => (r, s).

Definition gets {S A : Type} (f : S -> A) : M S A := fun s => (Ok (f s), s).

Definition modify {S : Type} (f : S -> S) : M S unit := fun s => (Ok tt, f s).

Declare Scope py_scope.
Delimit Scope py_scope with py.

Notation "x <- c ;; k" := (bind c (fun x => k))
  (at level 100, c at next level, right associativity) : py_scope.
Notation "c ;; k" := (bind c (fun _ => k))
  (at level 100, right associativity) : py_scope.

Open Scope py_scope.

Section Agent.

Context {B : Backend}.

(** ** Experience *)

Record Experience : Type := mkExperience {
  current_state : tensor;
  current_action : option nat;
  res_reward : Z;
  next_state : tensor
}.

(** ** ReplayMemory *)

Record ReplayMemory : Type := mkReplayMemory {
  _max_size : option Z;
  _arr : list Experience;
  _size : Z
}.

Definition ReplayMemory_init (max_size : option Z) : ReplayMemory :=
  {| _max_size := max_size; _arr := []; _size := 0 |}.

(** [self._size == self._max_size and self._max_size is not None]: an int
    never equals [None]. *)
Definition at_capacity (m : ReplayMemory) : bool :=
  match _max_size m with
  | Some k => _size m =? k
  | None => false
  end.

(** [pop(0)] raises [IndexError] on an empty list, before any field of the
    object has been written. *)
Definition add_experience (ex : Experience) (m : ReplayMemory)
  : result ReplayMemory :=
  if at_capacity m then
    match _arr m with
    | [] => Raise IndexError
    | _ :: tl =>
        Ok {| _max_size := _max_size m;
              _arr := tl ++ [ex];
              _size := _size m - 1 + 1 |}
    end
  else
    Ok {| _max_size := _max_size m;
          _arr := _arr m ++ [ex];
          _size := _size m + 1 |}.

(** The shuffle is in place: the memory itself is reordered, and the batch
    is a fresh list (a slice). [p] is the generator's draw. *)
Definition get_random_experiences (p : list nat) (num_samples : Z)
    (m : ReplayMemory) : list Experience * ReplayMemory :=
  let arr := shuffle p (_arr m) in
  let m' := {| _max_size := _max_size m; _arr := arr; _size := _size m |} in
  (slice0 (if num_samples <? _size m then num_samples else _size m) arr, m').

(** Sequences of operations on one memory.  A call that raises leaves the
    memory as it was. *)
Inductive mem_op : Type :=
| OpAdd (ex : Experience)
| OpSample (p : list nat) (num_samples : Z).

Definition apply_op (m : ReplayMemory) (o : mem_op) : ReplayMemory :=
  match o with
  | OpAdd ex =>
      match add_experience ex m with
      | Ok m' => m'
      | Raise _ => m
      end
  | OpSample p n => snd (get_random_experiences p n m)
  end.

Definition run_ops (ops : list mem_op) (m : ReplayMemory) : ReplayMemory :=
  fold_left apply_op ops m.

(** The counter agrees with the list. *)
Definition size_ok (m : ReplayMemory) : Prop :=
  _size m = Z.of_nat (length (_arr m)).

(** ** QLearningParams and QLearningAgent

    The fields are those [update] and the methods it calls read or write;
    [input_shape], [num_outputs] and [_simulator] are inherited from the
    parent class [Agent]. *)

Record QLearningParams : Type := mkQLearningParams {
  wall : Z;
  snake_hit : Z;
  reward : Z;
  other : Z
}.

Inductive Simulator : Type := simulator_handle.

Record QLearningAgent : Type := mkQLearningAgent {
  input_shape : Z * Z;
  num_outputs : Z;
  _simulator : option Simulator;
  y : val;
  epsilon : val;
  batch_size : Z;
  replay_memory : ReplayMemory;
  _last_reward_time : val;
  _current_state : option tensor;
  _current_action : option nat;
  _rewarded_currently : bool;
  _collision_count : Z;
  _save_after : option Z;
  _training_model : bool;
  _train_each_step : bool;
  _debug : bool;
  _steps_without_reward : Z;
  _model : weights;
  _qlearn_params : QLearningParams
}.

Definition set_simulator_field (v : option Simulator) (a : QLearningAgent) : QLearningAgent :=
  {| input_shape := input_shape a;
     num_outputs := num_outputs a;
     _simulator := v;
     y := y a;
     epsilon := epsilon a;
     batch_size := batch_size a;
     replay_memory := replay_memory a;
     _last_reward_time := _last_reward_time a;
     _current_state := _current_state a;
     _current_action := _current_action a;
     _rewarded_currently := _rewarded_currently a;
     _collision_count := _collision_count a;
     _save_after := _save_after a;
     _training_model := _training_model a;
     _train_each_step := _train_each_step a;
     _debug := _debug a;
     _steps_without_reward := _steps_without_reward a;
     _model := _model a;
     _qlearn_params := _qlearn_params a |}.

Definition set_replay_memory (v : ReplayMemory) (a : QLearningAgent) : QLearningAgent :=
  {| input_shape := input_shape a;
     num_outputs := num_outputs a;
     _simulator := _simulator a;
     y := y a;
     epsilon := epsilon a;
     batch_size := batch_size a;
     replay_memory := v;
     _last_reward_time := _last_reward_time a;
     _current_state := _current_state a;
     _current_action := _current_action a;
     _rewarded_currently := _rewarded_currently a;
     _collision_count := _collision_count a;
     _save_after := _save_after a;
     _training_model := _training_model a;
     _train_each_step := _train_each_step a;
     _debug := _debug a;
     _steps_without_reward := _steps_without_reward a;
     _model := _model a;
     _qlearn_params := _qlearn_params a |}.

Definition set_last_reward_time (v : val) (a : QLearningAgent) : QLearningAgent :=
  {| input_shape := input_shape a;
     num_outputs := num_outputs a;
     _simulator := _simulator a;
     y := y a;
     epsilon := epsilon a;
     batch_size := batch_size a;
     replay_memory := replay_memory a;
     _last_reward_time := v;
     _current_state := _current_state a;
     _current_action := _current_action a;
     _rewarded_currently := _rewarded_currently a;
     _collision_count := _collision_count a;
     _save_after := _save_after a;
     _training_model := _training_model a;
     _train_each_step := _train_each_step a;
     _debug := _debug a;
     _steps_without_reward := _steps_without_reward a;
     _model := _model a;
     _qlearn_params := _qlearn_params a |}.

Definition set_current_state (v : option tensor) (a : QLearningAgent) : QLearningAgent :=
  {| input_shape := input_shape a;
     num_outputs := num_outputs a;
     _simulator := _simulator a;
     y := y a;
     epsilon := epsilon a;
     batch_size := batch_size a;
     replay_memory := replay_memory a;
     _last_reward_time := _last_reward_time a;
     _current_state := v;
     _current_action := _current_action a;
     _rewarded_currently := _rewarded_currently a;
     _collision_count := _collision_count a;
     _save_after := _save_after a;
     _training_model := _training_model a;
     _train_each_step := _train_each_step a;
     _debug := _debug a;
     _steps_without_reward := _steps_without_reward a;
     _model := _model a;
     _qlearn_params := _qlearn_params a |}.

Definition set_current_action (v : option nat) (a : QLearningAgent) : QLearningAgent :=
  {| input_shape := input_shape a;
     num_outputs := num_outputs a;
     _simulator := _simulator a;
     y := y a;
     epsilon := epsilon a;
     batch_size := batch_size a;
     replay_memory := replay_memory a;
     _last_reward_time := _last_reward_time a;
     _current_state := _current_state a;
     _current_action := v;
     _rewarded_currently := _rewarded_currently a;
     _collision_count := _collision_count a;
     _save_after := _save_after a;
     _training_model := _training_model a;
     _train_each_step := _train_each_step a;
     _debug := _debug a;
     _steps_without_reward := _steps_without_reward a;
     _model := _model a;
     _qlearn_params := _qlearn_params a |}.

Definition set_rewarded_currently (v : bool) (a : QLearningAgent) : QLearningAgent :=
  {| input_shape := input_shape a;
     num_outputs := num_outputs a;
     _simulator := _simulator a;
     y := y a;
     epsilon := epsilon a;
     batch_size := batch_size a;
     replay_memory := replay_memory a;
     _last_reward_time := _last_reward_time a;
     _current_state := _current_state a;
     _current_action := _current_action a;
     _rewarded_currently := v;
     _collision_count := _collision_count a;
     _save_after := _save_after a;
     _training_model := _training_model a;
     _train_each_step := _train_each_step a;
     _debug := _debug a;
     _steps_without_reward := _steps_without_reward a;
     _model := _model a;
     _qlearn_params := _qlearn_params a |}.

Definition set_collision_count (v : Z) (a : QLearningAgent) : QLearningAgent :=
  {| input_shape := input_shape a;
     num_outputs := num_outputs a;
     _simulator := _simulator a;
     y := y a;
     epsilon := epsilon a;
     batch_size := batch_size a;
     replay_memory := replay_memory a;
     _last_reward_time := _last_reward_time a;
     _current_state := _current_state a;
     _current_action := _current_action a;
     _rewarded_currently := _rewarded_currently a;
     _collision_count := v;
     _save_after := _save_after a;
     _training_model := _training_model a;
     _train_each_step := _train_each_step a;
     _debug := _debug a;
     _steps_without_reward := _steps_without_reward a;
     _model := _model a;
     _qlearn_params := _qlearn_params a |}.

Definition set_steps_without_reward (v : Z) (a : QLearningAgent) : QLearningAgent :=
  {| input_shape := input_shape a;
     num_outputs := num_outputs a;
     _simulator := _simulator a;
     y := y a;
     epsilon := epsilon a;
     batch_size := batch_size a;
     replay_memory := replay_memory a;
     _last_reward_time := _last_reward_time a;
     _current_state := _current_state a;
     _current_action := _current_action a;
     _rewarded_currently := _rewarded_currently a;
     _collision_count := _collision_count a;
     _save_after := _save_after a;
     _training_model := _training_model a;
     _train_each_step := _train_each_step a;
     _debug := _debug a;
     _steps_without_reward := v;
     _model := _model a;
     _qlearn_params := _qlearn_params a |}.

Definition set_model (v : weights) (a : QLearningAgent) : QLearningAgent :=
  {| input_shape := input_shape a;
     num_outputs := num_outputs a;
     _simulator := _simulator a;
     y := y a;
     epsilon := epsilon a;
     batch_size := batch_size a;
     replay_memory := replay_memory a;
     _last_reward_time := _last_reward_time a;
     _current_state := _current_state a;
     _current_action := _current_action a;
     _rewarded_currently := _rewarded_currently a;
     _collision_count := _collision_count a;
     _save_after := _save_after a;
     _training_model := _training_model a;
     _train_each_step := _train_each_step a;
     _debug := _debug a;
     _steps_without_reward := _steps_without_reward a;
     _model := v;
     _qlearn_params := _qlearn_params a |}.

(** ** The world of a tick

    [perms], [rands], [choices] are what [np.random.shuffle], [np.random.rand]
    and [np.random.choice] will draw next, [times] what [time.time] will
    return; [trace] logs, oldest first, the calls made to the model, to the
    simulator, to the replay memory and to the logger ([EvDebug] is the
    message of [update], with the action, the reward and the predicted
    values; [EvDebugRestart] the one of [_request_restart]). *)

Inductive event : Type :=
| EvSaveWeights (path : string)
| EvPredict (x : tensor)
| EvFit (X : list tensor) (Y : list (list val))
| EvAdd (ex : Experience)
| EvDebug (action : nat) (rew : Z) (actions : list val)
| EvDebugRestart
| EvReset.

Record World : Type := mkWorld {
  self : QLearningAgent;
  perms : list (list nat);
  rands : list val;
  choices : list nat;
  times : list val;
  trace : list event
}.

Definition with_self (v : QLearningAgent) (w : World) : World :=
  {| self := v;
     perms := perms w;
     rands := rands w;
     choices := choices w;
     times := times w;
     trace := trace w |}.

Definition with_perms (v : list (list nat)) (w : World) : World :=
  {| self := self w;
     perms := v;
     rands := rands w;
     choices := choices w;
     times := times w;
     trace := trace w |}.

Definition with_rands (v : list val) (w : World) : World :=
  {| self := self w;
     perms := perms w;
     rands := v;
     choices := choices w;
     times := times w;
     trace := trace w |}.

Definition with_choices (v : list nat) (w : World) : World :=
  {| self := self w;
     perms := perms w;
     rands := rands w;
     choices := v;
     times := times w;
     trace := trace w |}.

Definition with_times (v : list val) (w : World) : World :=
  {| self := self w;
     perms := perms w;
     rands := rands w;
     choices := choices w;
     times := v;
     trace := trace w |}.

Definition with_trace (v : list event) (w : World) : World :=
  {| self := self w;
     perms := perms w;
     rands := rands w;
     choices := choices w;
     times := times w;
     trace := v |}.

(** ** Primitive operations *)

Definition get_self : M World QLearningAgent := gets self.

Definition set_self (f : QLearningAgent -> QLearningAgent) : M World unit :=
  modify (fun w => with_self (f (self w)) w).

Definition emit (e : event) : M World unit :=
  modify (fun w => with_trace (trace w ++ [e]) w).

Definition draw_perm : M World (list nat) :=
  fun w => (Ok (hd [] (perms w)), with_perms (tl (perms w)) w).

Definition draw_rand : M World val :=
  fun w => (Ok (hd vzero (rands w)), with_rands (tl (rands w)) w).

Definition draw_choice : M World nat :=
  fun w => (Ok (hd O (choices w)), with_choices (tl (choices w)) w).

Definition time_time : M World val :=
  fun w => (Ok (hd vzero (times w)), with_times (tl (times w)) w).

(** [self._model.predict(x, verbose=0)[0]] *)
Definition model_predict (x : tensor) : M World (list val) :=
  emit (EvPredict x) ;;
  a <- get_self ;;
  ret (predict (_model a) x).

(** [self._model.fit(X, y, ...)] *)
Definition model_fit (X : list tensor) (Y : list (list val)) : M World unit :=
  emit (EvFit X Y) ;;
  set_self (fun a => set_model (fit (_model a) X Y) a).

(** [self.replay_memory.add_experience(ex)] *)
Definition memory_add (ex : Experience) : M World unit :=
  emit (EvAdd ex) ;;
  a <- get_self ;;
  m <- lift (add_experience ex (replay_memory a)) ;;
  set_self (set_replay_memory m).

(** [self.replay_memory.get_random_experiences(n)] *)
Definition memory_sample (n : Z) : M World (list Experience) :=
  p <- draw_perm ;;
  a <- get_self ;;
  let (batch, m) := get_random_experiences p n (replay_memory a) in
  set_self (set_replay_memory m) ;;
  ret batch.

(** ** NumPy helpers *)

(** [np.zeros((n, ...))] as [n] rows; a negative dimension is a
    [ValueError]. *)
Definition np_zeros {A : Type} (n : Z) (inner : list Z) (row : A)
  : result (list A) :=
  if (n <? 0) || existsb (fun d => d <? 0) inner
  then Raise ValueError
  else Ok (repeat row (Z.to_nat n)).

(** [np.max] of a row. *)
Definition np_max (l : list val) : result val :=
  match l with
  | [] => Raise ValueError
  | x :: tl => Ok (fold_left (fun m v => if vltb m v then v else m) tl x)
  end.

(** [np.argmax]: the first position holding the greatest entry. *)
Fixpoint argmax_from (best : val) (bi i : nat) (l : list val) : nat :=
  match l with
  | [] => bi
  | v :: tl =>
      if vltb best v then argmax_from v i (S i) tl
      else argmax_from best bi (S i) tl
  end.

Definition np_argmax (l : list val) : result nat :=
  match l with
  | [] => Raise ValueError
  | x :: tl => Ok (argmax_from x 0%nat 1%nat tl)
  end.

(** [np.random.choice(np.arange(n))] *)
Definition random_choice (n : Z) : M World nat :=
  if n <=? 0 then raise ValueError
  else c <- draw_choice ;; ret (Nat.modulo c (Z.to_nat n)).

(** [q[0][action] = target]: an index out of range is an [IndexError];
    indexing by [None] adds an axis, and the assignment then fills the
    row. *)
Definition assign_action (action : option nat) (target : val) (q : list val)
  : result (list val) :=
  match action with
  | Some i => setitem i target q
  | None => Ok (map (fun _ => target) q)
  end.

(** [x % d] *)
Definition py_mod (x : Z) (d : option Z) : result Z :=
  match d with
  | None => Raise TypeError
  | Some k => if k =? 0 then Raise ZeroDivisionError else Ok (x mod k)
  end.

(** [str(n)] for an int. *)
Definition str (n : Z) : string := NilEmpty.string_of_int (Z.to_int n).

(** ** Methods of [QLearningAgent] *)

Definition _get_reward (reward_collision wall_collision : bool) : M World Z :=
  a <- get_self ;;
  if wall_collision then ret (wall (_qlearn_params a))
  else if reward_collision then ret (reward (_qlearn_params a))
  else ret (other (_qlearn_params a)).

Definition _handle_experience (rew : Z) (inputs : tensor) : M World unit :=
  a <- get_self ;;
  match _current_state a with
  | Some s =>
      memory_add {| current_state := s;
                    current_action := _current_action a;
                    res_reward := rew;
                    next_state := inputs |}
  | None => ret tt
  end ;;
  set_self (set_current_state (Some inputs)).

(** The body of the loop of [_train_model], for the experiences from
    position [i] on. *)
Fixpoint train_rows (i : nat) (batch : list Experience)
    (X_train : list tensor) (y_train : list (list val))
  : M World (list tensor * list (list val)) :=
  match batch with
  | [] => ret (X_train, y_train)
  | experience :: rest =>
      let cur := np_array (current_state experience) in
      q_value_prediction <- model_predict cur ;;
      let resulting_state := np_array (next_state experience) in
      q_next <- model_predict resulting_state ;;
      best <- lift (np_max q_next) ;;
      a <- get_self ;;
      let q_target := vadd (vofZ (res_reward experience)) (vmul (y a) best) in
      q_row <- lift (assign_action (current_action experience) q_target
                       q_value_prediction) ;;
      X' <- lift (setitem i cur X_train) ;;
      y' <- lift (setitem i q_row y_train) ;;
      train_rows (S i) rest X' y'
  end.

Definition _train_model : M World unit :=
  a <- get_self ;;
  batch <- memory_sample (batch_size a) ;;
  a <- get_self ;;
  X_train <- lift (np_zeros (batch_size a)
                     [fst (input_shape a); snd (input_shape a); 1]
                     (zeros (fst (input_shape a)) (snd (input_shape a)))) ;;
  y_train <- lift (np_zeros (batch_size a) [num_outputs a]
                     (repeat vzero (Z.to_nat (num_outputs a)))) ;;
  XY <- train_rows 0 batch X_train y_train ;;
  model_fit (fst XY) (snd XY).

Definition _handle_training : M World unit :=
  a <- get_self ;;
  if _training_model a then
    if _train_each_step a then _train_model else ret tt
  else ret tt.

Definition _save_model_increment : M World unit :=
  a <- get_self ;;
  emit (EvSaveWeights
          ("./src/assets/models/model_" ++ str (_collision_count a)
             ++ ".weights.h5")).

Definition _handle_collision (wall_collision : bool) : M World unit :=
  if wall_collision then
    a <- get_self ;;
    r <- lift (py_mod (_collision_count a) (_save_after a)) ;;
    (if r =? 0 then _save_model_increment else ret tt) ;;
    a <- get_self ;;
    (if _training_model a then _train_model else ret tt) ;;
    set_self (fun a => set_collision_count (_collision_count a + 1) a)
  else ret tt.

Definition _handle_reward (rew : Z) (reward_collision : bool)
  : M World (Z * bool) :=
  if reward_collision then
    set_self (set_steps_without_reward 0) ;;
    a <- get_self ;;
    rew' <- (if _rewarded_currently a
             then ret (rew - (reward (_qlearn_params a)
                              - other (_qlearn_params a)))
             else (now <- time_time ;;
                   set_self (set_last_reward_time now) ;;
                   ret rew)) ;;
    set_self (set_rewarded_currently true) ;;
    ret (rew', false)
  else
    set_self (fun a =>
      set_steps_without_reward (_steps_without_reward a + 1) a) ;;
    set_self (set_rewarded_currently false) ;;
    a <- get_self ;;
    if _steps_without_reward a >=? fst (input_shape a) * snd (input_shape a)
    then ret (rew + wall (_qlearn_params a), true)
    else ret (rew, false).

Definition _request_restart : M World unit :=
  a <- get_self ;;
  (if _debug a then emit EvDebugRestart else ret tt) ;;
  match _simulator a with
  | Some _ => emit EvReset
  | None => raise AttributeError
  end ;;
  set_self (set_steps_without_reward 0).

(** Lines 169-173 of [update]: the choice of the action; the predicted
    values are returned along with it. *)
Definition decision_policy (inputs : tensor) : M World (nat * list val) :=
  actions <- model_predict inputs ;;
  action <- lift (np_argmax actions) ;;
  r <- draw_rand ;;
  a <- get_self ;;
  action <- (if vltb (epsilon a) r && _training_model a
             then random_choice (num_outputs a)
             else ret action) ;;
  set_self (set_current_action (Some action)) ;;
  ret (action, actions).

Definition update (inputs : tensor)
    (reward_collision wall_collision : bool) : M World nat :=
  let inputs := expand_dims inputs in
  a <- get_self ;;
  match _simulator a with
  | Some _ => ret tt
  | None => raise AssertionError
  end ;;
  rew <- _get_reward reward_collision wall_collision ;;
  _handle_collision wall_collision ;;
  shaped <- _handle_reward rew reward_collision ;;
  _handle_experience (fst shaped) inputs ;;
  _handle_training ;;
  chosen <- decision_policy inputs ;;
  emit (EvDebug (fst chosen) (fst shaped) (snd chosen)) ;;
  (if snd shaped then _request_restart else ret tt) ;;
  ret (fst chosen).

(** A run of ticks, each given by the observation and the two collision
    flags; it stops at the first tick that raises. *)
Fixpoint run_ticks (ticks : list (tensor * bool * bool))
  : M World (list nat) :=
  match ticks with
  | [] => ret []
  | (inputs, reward_collision, wall_collision) :: rest =>
      action <- update inputs reward_collision wall_collision ;;
      actions <- run_ticks rest ;;
      ret (action :: actions)
  end.

(** The number of ticks of a run that come with a wall collision. *)
Definition wall_collisions (ticks : list (tensor * bool * bool)) : nat :=
  length (filter (fun t => snd t) ticks).

(** What the log tells about the ticks: for each message of [update], the
    reward it reports and whether the simulator was reset before the next
    message. *)
Fixpoint reset_follows (tr : list event) : bool :=
  match tr with
  | [] => false
  | EvReset :: _ => true
  | EvDebug _ _ _ :: _ => false
  | _ :: rest => reset_follows rest
  end.

Fixpoint shaped_log (tr : list event) : list (Z * bool) :=
  match tr with
  | [] => []
  | EvDebug _ rew _ :: rest => (rew, reset_follows rest) :: shaped_log rest
  | _ :: rest => shaped_log rest
  end.

(** The checkpoints saved in a log. *)
Fixpoint saved (tr : list event) : list string :=
  match tr with
  | [] => []
  | EvSaveWeights path :: rest => path :: saved rest
  | _ :: rest => saved rest
  end.

(** What the random generator and the clock still hold. *)
Definition entropy (w : World) :=
  (perms w, rands w, choices w, times w).

(** The calls to the model. *)
Definition model_event (e : event) : Prop :=
  match e with
  | EvPredict _ | EvFit _ _ => True
  | _ => False
  end.

(** The fields of the agent other than the replay memory and the model. *)
Definition control_state (a : QLearningAgent) :=
  (input_shape a, num_outputs a, _simulator a, y a, epsilon a, batch_size a,
   (_last_reward_time a, _current_state a, _current_action a,
    _rewarded_currently a, _collision_count a,
    _save_after a, _training_model a, _train_each_step a, _debug a,
    _steps_without_reward a, _qlearn_params a)).

(** The fields no method writes after construction. *)
Definition config (a : QLearningAgent) :=
  (input_shape a, num_outputs a, _simulator a, y a, epsilon a, batch_size a,
   (_save_after a, _training_model a, _train_each_step a, _debug a,
    _qlearn_params a)).

(** The events a tick logs before its message. *)
Definition quiet (e : event) : Prop :=
  match e with
  | EvDebug _ _ _ | EvDebugRestart | EvReset => False
  | _ => True
  end.

(** The events of one training pass that completes. *)
Definition training_pass (evs : list event) : Prop :=
  exists ps X Y, evs = map EvPredict ps ++ [EvFit X Y].

(** ** Construction *)

(** [QLearningAgent.__init__]: [save_after] is [None] when left at its
    default; [w0] is the freshly built (or loaded) model, [t0] the reading
    of the clock.  The parent class [Agent] is not part of the sources: a
    fresh agent is taken to have no simulator attached, as the assertion of
    [update] expects. *)
Definition QLearningAgent_init (y_ epsilon_ : val) (input_shape_ : Z * Z)
    (num_actions batch_size_ replay_mem_max : Z) (save_after : option Z)
    (training_model train_each_step debug : bool) (w0 : weights) (t0 : val)
  : QLearningAgent :=
  {| input_shape := input_shape_;
     num_outputs := num_actions;
     _simulator := None;
     y := y_;
     epsilon := epsilon_;
     batch_size := batch_size_;
     replay_memory := ReplayMemory_init (Some replay_mem_max);
     _last_reward_time := t0;
     _current_state := None;
     _current_action := None;
     _rewarded_currently := false;
     _collision_count := 0;
     _save_after := save_after;
     _training_model := training_model;
     _train_each_step := train_each_step;
     _debug := debug;
     _steps_without_reward := 0;
     _model := w0;
     _qlearn_params := {| wall := -20; snake_hit := -20;
                          reward := 20; other := -2 |} |}.

(** Modelled from the spec: the parent class [Agent] is not part of the
    sources; its [set_simulator] attaches the simulator that [update]
    asserts to be present. *)
Definition set_simulator (sim : Simulator) (a : QLearningAgent)
  : QLearningAgent :=
  set_simulator_field (Some sim) a.

End Agent.

(** ** A small backend for concrete runs

    Floats are integers, an observation is a number, the model counts how
    often it was fitted and predicts from the observation alone. *)

Definition toy : Backend :=
  {| val := Z;
     vzero := 0;
     vofZ := fun z => z;
     vadd := Z.add;
     vmul := Z.mul;
     vltb := Z.ltb;
     tensor := Z;
     expand_dims := fun x => x;
     np_array := fun x => x;
     zeros := fun _ _ => 0;
     weights := nat;
     predict := fun _ x => [x; 2 * x; 1];
     fit := fun w _ _ => S w |}.

Section Toy.

#[local] Existing Instance toy.

Definition ex1 : Experience :=
  {| current_state := 11; current_action := Some 0%nat;
     res_reward := -2; next_state := 12 |}.

Definition ex2 : Experience :=
  {| current_state := 12; current_action := Some 1%nat;
     res_reward := 20; next_state := 13 |}.

Definition ex3 : Experience :=
  {| current_state := 13; current_action := Some 2%nat;
     res_reward := -20; next_state := 14 |}.

(** An agent as [__init__] builds it, with the simulator attached. *)
Definition toy_agent (batch replay_mem_max : Z) (save_after : option Z)
    (training each_step : bool) : QLearningAgent :=
  set_simulator simulator_handle
    (QLearningAgent_init 1 1 (10, 10) 3 batch replay_mem_max save_after
       training each_step false O 0).

Definition toy_world (a : QLearningAgent) : World :=
  {| self := a; perms := []; rands := []; choices := []; times := [];
     trace := [] |}.

End Toy.

(** ** Views used to state further properties *)

Section Views.

Context {B : Backend}.

(** The experiences a sequence of operations hands to [add_experience], in
    order. *)
Definition added (ops : list mem_op) : list Experience :=
  flat_map (fun o => match o with
                     | OpAdd ex => [ex]
                     | OpSample _ _ => []
                     end) ops.

(** The experiences a log shows being handed to the replay memory. *)
Fixpoint stored (tr : list event) : list Experience :=
  match tr with
  | [] => []
  | EvAdd ex :: rest => ex :: stored rest
  | _ :: rest => stored rest
  end.

(** How a method may change the agent: the fields of [config] stay, the
    replay memory changes by additions and samplings only, and the model is
    left alone when the agent is not training. *)
Definition evolves (a a' : QLearningAgent) : Prop :=
  config a' = config a
  /\ (exists ops, replay_memory a' = run_ops ops (replay_memory a))
  /\ (_training_model a = false -> _model a' = _model a).

Definition tracks {A : Type} (c : M World A) : Prop :=
  forall w r w', c w = (r, w') -> evolves (self w) (self w').

End Views.

(** * Facts *)

Section ReplayMemoryFacts.

Context {B : Backend}.

Lemma flat_map_item_seq (pre l : list Experience) :
  flat_map (item (pre ++ l)) (seq (length pre) (length l)) = l.
Proof.
  revert pre. induction l as [|a l IH]; intros pre; [reflexivity|].
  cbn [length seq flat_map]. unfold item at 1.
  rewrite nth_error_app2 by apply Nat.le_refl.
  rewrite Nat.sub_diag. cbn [nth_error app]. f_equal.
  specialize (IH (pre ++ [a])).
  rewrite <- app_assoc, length_app in IH. cbn [app length] in IH.
  rewrite Nat.add_1_r in IH. exact IH.
Qed.

Lemma is_index_perm_Permutation (p : list nat) (n : nat) :
  is_index_perm p n = true -> Permutation (seq 0 n) p.
Proof.
  unfold is_index_perm. intros H.
  apply andb_true_iff in H. destruct H as [Hlen Hall].
  apply Nat.eqb_eq in Hlen.
  apply NoDup_Permutation_bis.
  - apply seq_NoDup.
  - rewrite length_seq, Hlen. apply Nat.le_refl.
  - intros i Hi. rewrite forallb_forall in Hall.
    specialize (Hall i Hi). apply existsb_exists in Hall.
    destruct Hall as [j [Hj Hij]]. apply Nat.eqb_eq in Hij. now subst.
Qed.

Lemma shuffle_Permutation (p : list nat) (l : list Experience) :
  Permutation (shuffle p l) l.
Proof.
  unfold shuffle. destruct (is_index_perm p (length l)) eqn:E;
    [|reflexivity].
  apply is_index_perm_Permutation in E.
  rewrite <- E.
  pose proof (flat_map_item_seq [] l) as H. cbn [app length] in H.
  rewrite H. reflexivity.
Qed.

Lemma shuffle_length (p : list nat) (l : list Experience) :
  length (shuffle p l) = length l.
Proof. apply Permutation_length, shuffle_Permutation. Qed.

Lemma apply_op_max_size (m : ReplayMemory) (o : mem_op) :
  _max_size (apply_op m o) = _max_size m.
Proof.
  destruct o as [ex|p n]; cbn; [|reflexivity].
  unfold add_experience.
  destruct (at_capacity m); [destruct (_arr m)|]; reflexivity.
Qed.

Lemma apply_op_size_ok (m : ReplayMemory) (o : mem_op) :
  size_ok m -> size_ok (apply_op m o).
Proof.
  unfold size_ok. intros H. destruct o as [ex|p n]; cbn.
  - unfold add_experience.
    destruct (at_capacity m).
    + destruct (_arr m) as [|a tl] eqn:E; [now rewrite E|].
      cbn [_arr _size]. rewrite H, length_app. cbn [length]. lia.
    + cbn [_arr _size]. rewrite H, length_app. cbn [length]. lia.
  - rewrite shuffle_length. exact H.
Qed.

Lemma run_ops_size_ok (ops : list mem_op) (m : ReplayMemory) :
  size_ok m -> size_ok (run_ops ops m).
Proof.
  unfold run_ops. revert m.
  induction ops as [|o ops IH]; intros m H; [exact H|].
  cbn [fold_left]. apply IH, apply_op_size_ok, H.
Qed.

Lemma apply_op_bounded (k : Z) (m : ReplayMemory) (o : mem_op) :
  _max_size m = Some k -> size_ok m -> _size m <= k ->
  _size (apply_op m o) <= k.
Proof.
  intros Hk Hok Hle. destruct o as [ex|p n]; cbn; [|exact Hle].
  unfold add_experience, at_capacity. rewrite Hk.
  destruct (Z.eqb_spec (_size m) k) as [E|E].
  - destruct (_arr m); [exact Hle|]. cbn [_size]. lia.
  - cbn [_size]. lia.
Qed.

Lemma run_ops_bounded (k : Z) (ops : list mem_op) (m : ReplayMemory) :
  _max_size m = Some k -> size_ok m -> _size m <= k ->
  _size (run_ops ops m) <= k.
Proof.
  unfold run_ops. revert m.
  induction ops as [|o ops IH]; intros m Hk Hok Hle; [exact Hle|].
  cbn [fold_left]. apply IH.
  - now rewrite apply_op_max_size.
  - now apply apply_op_size_ok.
  - now apply apply_op_bounded.
Qed.

End ReplayMemoryFacts.

(** ** Claims on the replay memory *)

Section ReplayMemoryClaims.

Context {B : Backend}.

(** C9: on every memory reached from a fresh one by additions and samplings,
    and for every [n >= 0], [get_random_experiences n] returns (it is a
    total function) exactly [min n size] experiences, each stored slot being
    used at most once: the batch is part of a rearrangement of the stored
    list, hence free of duplicates when the stored experiences are distinct;
    on an empty memory the batch is empty.  The size is unchanged. *)
Theorem sample_returns_min_without_duplicates
    (cap : option Z) (ops : list mem_op) (p : list nat) (n : Z) :
  0 <= n ->
  let m := run_ops ops (ReplayMemory_init cap) in
  let batch := fst (get_random_experiences p n m) in
  Z.of_nat (length batch) = Z.min n (_size m)
  /\ (exists rest, Permutation (batch ++ rest) (_arr m))
  /\ (NoDup (_arr m) -> NoDup batch)
  /\ (_size m = 0 -> batch = [])
  /\ _size (snd (get_random_experiences p n m)) = _size m.
Proof.
  intros Hn m batch.
  assert (Hok : size_ok m) by (apply run_ops_size_ok; reflexivity).
  unfold size_ok in Hok.
  set (k := if n <? _size m then n else _size m).
  assert (Hk : 0 <= k <= Z.of_nat (length (_arr m)) /\ k = Z.min n (_size m)).
  { unfold k. destruct (Z.ltb_spec n (_size m)); lia. }
  assert (Hb : batch = firstn (Z.to_nat k) (shuffle p (_arr m))).
  { unfold batch, get_random_experiences. cbn [fst]. fold k.
    unfold slice0. destruct (Z.ltb_spec k 0); [lia|reflexivity]. }
  assert (Hperm : Permutation
            (batch ++ skipn (Z.to_nat k) (shuffle p (_arr m))) (_arr m)).
  { rewrite Hb, firstn_skipn. apply shuffle_Permutation. }
  repeat split.
  - rewrite Hb, length_firstn, shuffle_length. lia.
  - eexists. exact Hperm.
  - intros Hnd. apply Permutation_sym in Hperm.
    apply (Permutation_NoDup Hperm) in Hnd.
    now apply NoDup_app_remove_r in Hnd.
  - intros Hz. rewrite Hb.
    replace k with 0 by lia. reflexivity.
Qed.

(** C5, as amended: for a capacity [max_size >= 0], after every operation
    of every sequence of additions and samplings on a fresh memory, the size
    is at most [max_size]. *)
Theorem size_within_nonnegative_capacity
    (max_size : Z) (ops : list mem_op) (done : nat) :
  0 <= max_size ->
  _size (run_ops (firstn done ops) (ReplayMemory_init (Some max_size)))
    <= max_size.
Proof.
  intros H. apply run_ops_bounded; [reflexivity|reflexivity|exact H].
Qed.

End ReplayMemoryClaims.

(** Witness of C9: a memory of capacity 2 after three additions, sampled for
    one experience. *)
Lemma sample_returns_min_without_duplicates_witness :
  0 <= 1 /\
  let m := run_ops [OpAdd ex1; OpAdd ex2; OpAdd ex3]
             (ReplayMemory_init (Some 2)) in
  let batch := fst (get_random_experiences [1%nat; 0%nat] 1 m) in
  Z.of_nat (length batch) = Z.min 1 (_size m)
  /\ (exists rest, Permutation (batch ++ rest) (_arr m))
  /\ (NoDup (_arr m) -> NoDup batch)
  /\ (_size m = 0 -> batch = [])
  /\ _size (snd (get_random_experiences [1%nat; 0%nat] 1 m)) = _size m.
Proof.
  split; [lia|].
  apply (sample_returns_min_without_duplicates (B := toy) (Some 2)
           [OpAdd ex1; OpAdd ex2; OpAdd ex3] [1%nat; 0%nat] 1).
  lia.
Defined.

(** Witness of C5 (amended): capacity 2, three additions and a sampling. *)
Lemma size_within_nonnegative_capacity_witness :
  0 <= 2 /\
  _size (run_ops
           (firstn 4 [OpAdd ex1; OpAdd ex2; OpSample [1%nat; 0%nat] 1;
                      OpAdd ex3])
           (ReplayMemory_init (Some 2))) <= 2.
Proof.
  split; [lia|].
  apply (size_within_nonnegative_capacity (B := toy) 2
           [OpAdd ex1; OpAdd ex2; OpSample [1%nat; 0%nat] 1; OpAdd ex3] 4).
  lia.
Defined.

(** C5 as stated fails: a memory built with [max_size = -1] never counts as
    full, and one addition already takes its size above [max_size]. *)
Lemma size_exceeds_negative_capacity :
  ~ (_size (run_ops [OpAdd ex1] (ReplayMemory_init (Some (-1)))) <= -1).
Proof. cbn. lia. Qed.

(** C1: capacity 2, two additions, one sampling whose shuffle swaps the two
    slots, then a third addition.  The eviction removes [ex2], the newest
    entry, and keeps [ex1], the oldest; without the sampling [ex1] is the
    one evicted. *)
Theorem eviction_after_sample_drops_newest :
  _arr (run_ops [OpAdd ex1; OpAdd ex2; OpSample [1%nat; 0%nat] 1; OpAdd ex3]
          (ReplayMemory_init (Some 2))) = [ex1; ex3]
  /\ _arr (run_ops [OpAdd ex1; OpAdd ex2; OpAdd ex3]
             (ReplayMemory_init (Some 2))) = [ex2; ex3].
Proof. split; reflexivity. Qed.

(** ** The monad *)

Lemma bind_Ok {S A C : Type} (c : M S A) (k : A -> M S C) s b s' :
  bind c k s = (Ok b, s') ->
  exists a s1, c s = (Ok a, s1) /\ k a s1 = (Ok b, s').
Proof.
  unfold bind. destruct (c s) as [[a|e] s1]; intros H.
  - now exists a, s1.
  - discriminate.
Qed.

Lemma bind_run {S A C : Type} (c : M S A) (k : A -> M S C) s a s1 :
  c s = (Ok a, s1) -> bind c k s = k a s1.
Proof. unfold bind. now intros ->. Qed.

Lemma bind_raise {S A C : Type} (c : M S A) (k : A -> M S C) s e s1 :
  c s = (Raise e, s1) -> bind c k s = (Raise e, s1).
Proof. unfold bind. now intros ->. Qed.

Section TrainingFacts.

Context {B : Backend}.

Lemma setitem_length {A : Type} (i : nat) (x : A) (l l' : list A) :
  setitem i x l = Ok l' -> length l' = length l.
Proof.
  revert i l'. induction l as [|a l IH]; intros i l' H; [discriminate|].
  destruct i as [|i]; cbn in H.
  - injection H as <-. reflexivity.
  - destruct (setitem i x l) as [tl'|e] eqn:E; [|discriminate].
    injection H as <-. cbn. f_equal. eapply IH, E.
Qed.

Lemma setitem_other {A : Type} (i j : nat) (x : A) (l l' : list A) :
  setitem i x l = Ok l' -> j <> i -> nth_error l' j = nth_error l j.
Proof.
  revert i j l'. induction l as [|a l IH]; intros i j l' H Hj; [discriminate|].
  destruct i as [|i]; cbn in H.
  - injection H as <-. destruct j; [congruence|reflexivity].
  - destruct (setitem i x l) as [tl'|e] eqn:E; [|discriminate].
    injection H as <-. destruct j as [|j]; [reflexivity|].
    cbn. eapply IH; [exact E|congruence].
Qed.

Lemma setitem_Ok {A : Type} (i : nat) (x : A) (l : list A) :
  (i < length l)%nat -> exists l', setitem i x l = Ok l'.
Proof.
  revert i. induction l as [|a l IH]; intros i H; cbn in H; [lia|].
  destruct i as [|i]; cbn; [eauto|].
  destruct (IH i ltac:(lia)) as [l' E]. rewrite E. eauto.
Qed.


Lemma model_predict_run (x : tensor) (w : World) :
  model_predict x w
  = (Ok (predict (_model (self w)) x), with_trace (trace w ++ [EvPredict x]) w).
Proof. reflexivity. Qed.

Lemma train_rows_frame (batch : list Experience) :
  forall i X Y w r w',
  train_rows i batch X Y w = (r, w') ->
  self w' = self w /\ entropy w' = entropy w
  /\ exists ps, trace w' = trace w ++ map EvPredict ps.
Proof.
  induction batch as [|e batch IH]; intros i X Y w r w' H.
  - injection H as <- <-. repeat split. exists []. cbn. now rewrite app_nil_r.
  - cbn [train_rows] in H.
    rewrite (bind_run _ _ _ _ _ (model_predict_run _ _)) in H.
    rewrite (bind_run _ _ _ _ _ (model_predict_run _ _)) in H.
    unfold bind, lift, get_self, gets in H. cbn in H.
    destruct (np_max _) as [best|err] in H.
    2:{ injection H as <- <-. cbn. repeat split.
        exists [np_array (current_state e); np_array (next_state e)].
        cbn. now rewrite <- app_assoc. }
    destruct (assign_action _ _ _) as [q_row|err] in H.
    2:{ injection H as <- <-. cbn. repeat split.
        exists [np_array (current_state e); np_array (next_state e)].
        cbn. now rewrite <- app_assoc. }
    destruct (setitem i _ X) as [X1|err] in H.
    2:{ injection H as <- <-. cbn. repeat split.
        exists [np_array (current_state e); np_array (next_state e)].
        cbn. now rewrite <- app_assoc. }
    destruct (setitem i _ Y) as [Y1|err] in H.
    2:{ injection H as <- <-. cbn. repeat split.
        exists [np_array (current_state e); np_array (next_state e)].
        cbn. now rewrite <- app_assoc. }
    apply IH in H. cbn in H. destruct H as (Hs & He & ps & Ht).
    repeat split; [exact Hs|exact He|].
    exists (np_array (current_state e) :: np_array (next_state e) :: ps).
    rewrite Ht. cbn. now rewrite <- !app_assoc.
Qed.

Lemma train_rows_Ok (batch : list Experience) :
  forall i X Y w X' Y' w',
  train_rows i batch X Y w = (Ok (X', Y'), w') ->
  length X' = length X /\ length Y' = length Y
  /\ forall j, (j < i \/ i + length batch <= j)%nat ->
       nth_error X' j = nth_error X j /\ nth_error Y' j = nth_error Y j.
Proof.
  induction batch as [|e batch IH]; intros i X Y w X' Y' w' H.
  - injection H as <- <- <-. auto.
  - cbn [train_rows] in H.
    rewrite (bind_run _ _ _ _ _ (model_predict_run _ _)) in H.
    rewrite (bind_run _ _ _ _ _ (model_predict_run _ _)) in H.
    unfold bind, lift, get_self, gets in H. cbn in H.
    destruct (np_max _) as [best|err] in H; [|discriminate].
    destruct (assign_action _ _ _) as [q_row|err] in H; [|discriminate].
    destruct (setitem i _ X) as [X1|err] eqn:EX in H; [|discriminate].
    destruct (setitem i _ Y) as [Y1|err] eqn:EY in H; [|discriminate].
    apply IH in H. destruct H as (HX & HY & Hrows).
    rewrite HX, HY, (setitem_length _ _ _ _ EX), (setitem_length _ _ _ _ EY).
    split; [reflexivity|split; [reflexivity|]].
    intros j Hj. cbn [length] in Hj.
    destruct (Hrows j) as [-> ->]; [lia|].
    rewrite (setitem_other _ j _ _ _ EX), (setitem_other _ j _ _ _ EY);
      [auto|lia|lia].
Qed.

Lemma memory_sample_run (n : Z) (w : World) :
  memory_sample n w
  = (Ok (fst (get_random_experiences (hd [] (perms w)) n
                (replay_memory (self w)))),
     with_self
       (set_replay_memory
          (snd (get_random_experiences (hd [] (perms w)) n
                  (replay_memory (self w))))
          (self w))
       (with_perms (tl (perms w)) w)).
Proof. reflexivity. Qed.

Lemma np_zeros_Ok {A : Type} (n : Z) (inner : list Z) (row : A) l :
  np_zeros n inner row = Ok l -> l = repeat row (Z.to_nat n) /\ 0 <= n.
Proof.
  unfold np_zeros. destruct (Z.ltb_spec n 0) as [Hn|Hn]; cbn; [discriminate|].
  destruct (existsb _ inner); [discriminate|].
  intros H. injection H as <-. split; [reflexivity|lia].
Qed.

Lemma Forall_model_event_predicts (ps : list tensor) :
  Forall model_event (map EvPredict ps).
Proof. induction ps; cbn; constructor; cbn; auto. Qed.

Lemma _train_model_frame (w : World) r w' :
  _train_model w = (r, w') ->
  control_state (self w') = control_state (self w)
  /\ rands w' = rands w /\ choices w' = choices w /\ times w' = times w
  /\ exists evs, trace w' = trace w ++ evs /\ Forall model_event evs.
Proof.
  unfold _train_model. intros H.
  unfold bind at 1, get_self at 1, gets at 1 in H.
  rewrite (bind_run _ _ _ _ _ (memory_sample_run _ _)) in H.
  unfold bind at 1, get_self at 1, gets at 1 in H.
  cbn [self with_self with_perms set_replay_memory batch_size input_shape
       num_outputs] in H.
  set (w1 := with_self _ _) in H.
  assert (Hw1 : control_state (self w1) = control_state (self w)
                /\ rands w1 = rands w /\ choices w1 = choices w
                /\ times w1 = times w /\ trace w1 = trace w)
    by (repeat split).
  clearbody w1. destruct Hw1 as (Hc & Hr & Hch & Ht & Htr).
  rewrite <- Hc, <- Hr, <- Hch, <- Ht, <- Htr.
  unfold bind at 1, lift at 1 in H.
  destruct (np_zeros _ _ _) as [X0|err] in H.
  2:{ injection H as <- <-. repeat split. exists []. now rewrite app_nil_r. }
  unfold bind at 1, lift at 1 in H.
  destruct (np_zeros _ _ _) as [Y0|err] in H.
  2:{ injection H as <- <-. repeat split. exists []. now rewrite app_nil_r. }
  unfold bind at 1 in H.
  destruct (train_rows _ _ _ _ _) as [[[X1 Y1]|err] w2] eqn:ET in H;
    apply train_rows_frame in ET; destruct ET as (Hs & He & ps & Hp);
    injection He as Hpe Hre Hche Hte.
  - cbn in H. injection H as <- <-. cbn.
    rewrite Hs, Hre, Hche, Hte, Hp. repeat split.
    exists (map EvPredict ps ++ [EvFit X1 Y1]).
    rewrite app_assoc. split; [reflexivity|].
    apply Forall_app. split; [apply Forall_model_event_predicts|].
    constructor; cbn; auto.
  - injection H as <- <-. rewrite Hs, Hre, Hche, Hte, Hp. repeat split.
    exists (map EvPredict ps). split; [reflexivity|].
    apply Forall_model_event_predicts.
Qed.

Lemma _train_model_Ok (w w' : World) :
  _train_model w = (Ok tt, w') ->
  let a := self w in
  let sampled := get_random_experiences (hd [] (perms w)) (batch_size a)
                   (replay_memory a) in
  exists ps X Y,
    trace w' = trace w ++ map EvPredict ps ++ [EvFit X Y]
    /\ Z.of_nat (length X) = batch_size a
    /\ Z.of_nat (length Y) = batch_size a
    /\ (forall j, (length (fst sampled) <= j < length X)%nat ->
         nth_error X j = Some (zeros (fst (input_shape a)) (snd (input_shape a)))
         /\ nth_error Y j = Some (repeat vzero (Z.to_nat (num_outputs a))))
    /\ _model (self w') = fit (_model a) X Y
    /\ replay_memory (self w') = snd sampled.
Proof.
  intros H a sampled. unfold _train_model in H.
  unfold bind at 1, get_self at 1, gets at 1 in H.
  rewrite (bind_run _ _ _ _ _ (memory_sample_run _ _)) in H.
  unfold bind at 1, get_self at 1, gets at 1 in H.
  cbn [self with_self with_perms set_replay_memory batch_size input_shape
       num_outputs] in H.
  fold a in H. fold sampled in H.
  set (w1 := with_self _ _) in H.
  assert (Hw1 : trace w1 = trace w /\ _model (self w1) = _model a
                /\ replay_memory (self w1) = snd sampled)
    by (repeat split).
  clearbody w1. destruct Hw1 as (Htr & Hm & Hmem).
  unfold bind at 1, lift at 1 in H.
  destruct (np_zeros _ _ _) as [X0|err] eqn:EX in H; [|discriminate].
  unfold bind at 1, lift at 1 in H.
  destruct (np_zeros _ _ _) as [Y0|err] eqn:EY in H; [|discriminate].
  apply np_zeros_Ok in EX, EY. destruct EX as [-> Hbs], EY as [-> _].
  unfold bind at 1 in H.
  destruct (train_rows _ _ _ _ _) as [[[X1 Y1]|err] w2] eqn:ET in H;
    [|discriminate].
  pose proof (train_rows_frame _ _ _ _ _ _ _ ET) as (Hs & _ & ps & Hp).
  apply train_rows_Ok in ET. destruct ET as (HX & HY & Hrows).
  cbn in H. injection H as <-.
  cbn [self trace with_self with_trace set_model _model replay_memory].
  exists ps, X1, Y1. rewrite Hs, Hp, Htr, Hm, Hmem, HX, HY, !repeat_length.
  split; [now rewrite <- app_assoc|].
  split; [lia|]. split; [lia|]. split; [|split; reflexivity].
  intros j Hj. destruct (Hrows j) as [-> ->]; [lia|].
  rewrite !nth_error_repeat by lia. auto.
Qed.
End TrainingFacts.

(** ** Tactics *)

Ltac bind_inv H x w E :=
  apply bind_Ok in H; destruct H as (x & w & E & H).

Ltac splits := repeat match goal with |- _ /\ _ => split end.

Ltac simpl_world :=
  cbn [self perms rands choices times trace
       with_self with_perms with_rands with_choices with_times with_trace
       input_shape num_outputs _simulator y epsilon batch_size replay_memory
       _last_reward_time _current_state _current_action _rewarded_currently
       _collision_count _save_after _training_model _train_each_step _debug
       _steps_without_reward _model _qlearn_params
       set_simulator_field set_replay_memory set_last_reward_time
       set_current_state set_current_action set_rewarded_currently
       set_collision_count set_steps_without_reward set_model].

Section TickFacts.

Context {B : Backend}.

Lemma _train_model_control (w : World) r w' :
  _train_model w = (r, w') ->
  control_state (self w') = control_state (self w).
Proof. intros H. now apply _train_model_frame in H. Qed.

Lemma control_config (a b : QLearningAgent) :
  control_state a = control_state b -> config a = config b.
Proof. unfold control_state, config. congruence. Qed.

Lemma _get_reward_run (rc wc : bool) (w : World) :
  _get_reward rc wc w
  = (Ok (if wc then wall (_qlearn_params (self w))
         else if rc then reward (_qlearn_params (self w))
         else other (_qlearn_params (self w))), w).
Proof. destruct wc, rc; reflexivity. Qed.

Lemma _handle_reward_on_reward (rew : Z) (w : World) :
  exists w',
    _handle_reward rew true w
    = (Ok (if _rewarded_currently (self w)
           then rew - (reward (_qlearn_params (self w))
                       - other (_qlearn_params (self w)))
           else rew, false), w')
    /\ trace w' = trace w
    /\ config (self w') = config (self w)
    /\ _current_state (self w') = _current_state (self w)
    /\ _current_action (self w') = _current_action (self w)
    /\ _collision_count (self w') = _collision_count (self w)
    /\ replay_memory (self w') = replay_memory (self w)
    /\ _model (self w') = _model (self w)
    /\ _rewarded_currently (self w') = true
    /\ _steps_without_reward (self w') = 0.
Proof.
  unfold _handle_reward, bind, set_self, modify, get_self, gets. cbn.
  destruct (_rewarded_currently (self w)); cbn; eexists; repeat split.
Qed.

Lemma _handle_reward_off_reward (rew : Z) (w : World) :
  let a := self w in
  let starved := _steps_without_reward a + 1
                 >=? fst (input_shape a) * snd (input_shape a) in
  exists w',
    _handle_reward rew false w
    = (Ok (if starved then rew + wall (_qlearn_params a) else rew, starved),
       w')
    /\ trace w' = trace w
    /\ config (self w') = config a
    /\ _current_state (self w') = _current_state a
    /\ _current_action (self w') = _current_action a
    /\ _collision_count (self w') = _collision_count a
    /\ replay_memory (self w') = replay_memory a
    /\ _model (self w') = _model a
    /\ _rewarded_currently (self w') = false
    /\ _steps_without_reward (self w') = _steps_without_reward a + 1.
Proof.
  intros a starved. subst a starved.
  unfold _handle_reward, bind, set_self, modify, get_self, gets. cbn.
  destruct (_ >=? _); cbn; eexists; repeat split.
Qed.


Lemma _handle_experience_Ok (rew : Z) (inputs : tensor) (w w' : World) :
  _handle_experience rew inputs w = (Ok tt, w') ->
  let a := self w in
  trace w'
  = trace w ++ match _current_state a with
               | Some s => [EvAdd {| current_state := s;
                                     current_action := _current_action a;
                                     res_reward := rew;
                                     next_state := inputs |}]
               | None => []
               end
  /\ config (self w') = config a
  /\ _current_state (self w') = Some inputs
  /\ _current_action (self w') = _current_action a
  /\ _collision_count (self w') = _collision_count a
  /\ _model (self w') = _model a
  /\ _rewarded_currently (self w') = _rewarded_currently a
  /\ _steps_without_reward (self w') = _steps_without_reward a.
Proof.
  intros H a. subst a. unfold _handle_experience in H.
  unfold bind at 1, get_self, gets in H.
  destruct (_current_state (self w)) as [s|].
  - unfold memory_add, bind, emit, modify, get_self, gets, lift in H.
    cbn in H.
    destruct (add_experience _ _) as [m|e] in H; [|discriminate].
    cbn in H. injection H as <-. cbn. repeat split.
  - cbn in H. injection H as <-. cbn. rewrite app_nil_r. repeat split.
Qed.

Lemma _handle_training_Ok (w w' : World) :
  _handle_training w = (Ok tt, w') ->
  let a := self w in
  exists evs,
    trace w' = trace w ++ evs
    /\ (if _training_model a && _train_each_step a
        then training_pass evs else evs = [])
    /\ control_state (self w') = control_state a.
Proof.
  intros H a. subst a. unfold _handle_training in H.
  unfold bind at 1, get_self, gets in H.
  destruct (_training_model (self w)); cbn [andb].
  - destruct (_train_each_step (self w)).
    + pose proof (_train_model_control _ _ _ H) as Hc.
      apply _train_model_Ok in H. cbv zeta in H.
      destruct H as (ps & X & Y & Ht & _).
      eexists. split; [exact Ht|]. split; [|exact Hc].
      now exists ps, X, Y.
    + injection H as <-. exists []. now rewrite app_nil_r.
  - injection H as <-. exists []. now rewrite app_nil_r.
Qed.

Lemma decision_policy_Ok (x : tensor) (w w' : World) act q :
  decision_policy x w = (Ok (act, q), w') ->
  let a := self w in
  q = predict (_model a) x
  /\ trace w' = trace w ++ [EvPredict x]
  /\ (_training_model a = false -> np_argmax q = Ok act)
  /\ config (self w') = config a
  /\ _current_state (self w') = _current_state a
  /\ _current_action (self w') = Some act
  /\ _collision_count (self w') = _collision_count a
  /\ _rewarded_currently (self w') = _rewarded_currently a
  /\ _steps_without_reward (self w') = _steps_without_reward a.
Proof.
  intros H a. subst a. unfold decision_policy in H.
  rewrite (bind_run _ _ _ _ _ (model_predict_run _ _)) in H.
  unfold bind at 1, lift at 1 in H.
  destruct (np_argmax _) as [best|e] eqn:E in H; [|discriminate].
  unfold bind at 1, draw_rand at 1 in H.
  unfold bind at 1, get_self, gets in H.
  cbn [self with_rands with_trace epsilon _training_model num_outputs] in H.
  destruct (_training_model (self w)).
  - rewrite andb_true_r in H.
    destruct (vltb _ _) in H.
    + unfold random_choice in H.
      destruct (_ <=? _) in H; [discriminate|].
      cbn in H. injection H as <- <- <-. cbn. repeat split. discriminate.
    + cbn in H. injection H as <- <- <-. cbn. repeat split. discriminate.
  - rewrite andb_false_r in H.
    cbn in H. injection H as <- <- <-. cbn. repeat split. intros _. exact E.
Qed.

Lemma _request_restart_Ok (w w' : World) :
  _request_restart w = (Ok tt, w') ->
  let a := self w in
  trace w' = trace w ++ (if _debug a then [EvDebugRestart] else [])
                     ++ [EvReset]
  /\ config (self w') = config a
  /\ _current_state (self w') = _current_state a
  /\ _current_action (self w') = _current_action a
  /\ _collision_count (self w') = _collision_count a
  /\ _rewarded_currently (self w') = _rewarded_currently a
  /\ _steps_without_reward (self w') = 0.
Proof.
  intros H a. subst a. unfold _request_restart in H.
  unfold bind, get_self, gets, emit, modify, set_self, raise in H.
  cbn in H.
  destruct (_debug (self w)); cbn in H;
    (destruct (_simulator (self w)); [|discriminate]);
    injection H as <-; cbn; rewrite <- ?app_assoc; repeat split.
Qed.


Lemma saved_app (tr1 tr2 : list event) :
  saved (tr1 ++ tr2) = (saved tr1 ++ saved tr2)%list.
Proof.
  induction tr1 as [|e tr1 IH]; [reflexivity|].
  destruct e; cbn; rewrite IH; reflexivity.
Qed.

Lemma saved_model_events (evs : list event) :
  Forall model_event evs -> saved evs = [].
Proof.
  induction 1 as [|e evs He _ IH]; [reflexivity|].
  destruct e; cbn in He |- *; (exact IH || contradiction).
Qed.

Lemma _save_model_increment_run (w : World) :
  _save_model_increment w
  = (Ok tt,
     with_trace
       (trace w ++ [EvSaveWeights
                      ("./src/assets/models/model_"
                         ++ str (_collision_count (self w))
                         ++ ".weights.h5")]) w).
Proof. reflexivity. Qed.

(** The checkpoint and the training of a wall collision, whatever the
    outcome of the training. *)
Lemma _handle_collision_saves (k : Z) (w : World) r w' :
  _save_after (self w) = Some k -> k <> 0 ->
  _handle_collision true w = (r, w') ->
  let c := _collision_count (self w) in
  saved (trace w')
  = (saved (trace w)
       ++ (if c mod k =? 0
           then ["./src/assets/models/model_" ++ str c ++ ".weights.h5"]%string
           else []))%list
  /\ (r = Ok tt -> _collision_count (self w') = c + 1).
Proof.
  intros Hk Hk0 H c. subst c. unfold _handle_collision in H.
  unfold bind at 1, get_self at 1, gets at 1 in H.
  unfold bind at 1, lift at 1, py_mod in H. rewrite Hk in H.
  destruct (Z.eqb_spec k 0) as [|_]; [contradiction|].
  set (c := _collision_count (self w)) in *.
  set (w1 := if c mod k =? 0
             then with_trace
                    (trace w ++ [EvSaveWeights
                                   ("./src/assets/models/model_" ++ str c
                                      ++ ".weights.h5")]) w
             else w).
  assert (H1 : (if c mod k =? 0 then _save_model_increment else ret tt) w
               = (Ok tt, w1)).
  { unfold w1. destruct (c mod k =? 0); reflexivity. }
  rewrite (bind_run _ _ _ _ _ H1) in H.
  assert (Hw1 : self w1 = self w
                /\ saved (trace w1)
                   = (saved (trace w)
                        ++ (if c mod k =? 0
                            then ["./src/assets/models/model_" ++ str c
                                    ++ ".weights.h5"]%string
                            else []))%list).
  { unfold w1. destruct (c mod k =? 0); cbn.
    - now rewrite saved_app.
    - now rewrite app_nil_r. }
  clearbody w1. destruct Hw1 as (Hs1 & Hsv1). rewrite <- Hsv1.
  unfold bind at 1, get_self at 1, gets at 1 in H. rewrite Hs1 in H.
  unfold bind at 1 in H.
  destruct (_training_model (self w)).
  - destruct (_train_model w1) as [[[]|e] w2] eqn:ET.
    + apply _train_model_frame in ET.
      destruct ET as (Hc & _ & _ & _ & evs & Ht & Hev).
      cbn in H. injection H as <- <-. cbn.
      rewrite Ht, saved_app, (saved_model_events _ Hev), app_nil_r.
      split; [reflexivity|]. intros _.
      unfold control_state in Hc. rewrite Hs1 in Hc. unfold c. congruence.
    + apply _train_model_frame in ET.
      destruct ET as (Hc & _ & _ & _ & evs & Ht & Hev).
      injection H as <- <-.
      rewrite Ht, saved_app, (saved_model_events _ Hev), app_nil_r.
      split; [reflexivity|]. discriminate.
  - cbn in H. injection H as <- <-. cbn. rewrite Hs1. split; reflexivity.
Qed.


Lemma _train_model_pass (w w' : World) :
  _train_model w = (Ok tt, w') ->
  exists evs, trace w' = trace w ++ evs /\ training_pass evs
              /\ control_state (self w') = control_state (self w).
Proof.
  intros H. pose proof (_train_model_control _ _ _ H) as Hc.
  apply _train_model_Ok in H. cbv zeta in H.
  destruct H as (ps & X & Y & Ht & _).
  eexists. split; [exact Ht|]. split; [|exact Hc]. now exists ps, X, Y.
Qed.

Lemma _handle_collision_Ok (wc : bool) (w w' : World) :
  _handle_collision wc w = (Ok tt, w') ->
  let a := self w in
  let c := _collision_count a in
  exists saves evs,
    trace w' = trace w ++ saves ++ evs
    /\ (if wc
        then exists k, _save_after a = Some k /\ k <> 0
               /\ saves = if c mod k =? 0
                          then [EvSaveWeights
                                  ("./src/assets/models/model_" ++ str c
                                     ++ ".weights.h5")]
                          else []
        else saves = [])
    /\ (if wc && _training_model a then training_pass evs else evs = [])
    /\ config (self w') = config a
    /\ _current_state (self w') = _current_state a
    /\ _current_action (self w') = _current_action a
    /\ _rewarded_currently (self w') = _rewarded_currently a
    /\ _steps_without_reward (self w') = _steps_without_reward a
    /\ _collision_count (self w') = (if wc then c + 1 else c)
    /\ (_training_model a = false -> _model (self w') = _model a).
Proof.
  intros H a c. subst a c. destruct wc.
  2:{ injection H as <-. exists [], []. cbn. rewrite app_nil_r.
      repeat split. }
  unfold _handle_collision in H.
  unfold bind at 1, get_self at 1, gets at 1 in H.
  unfold bind at 1, lift at 1, py_mod in H.
  destruct (_save_after (self w)) as [k|] eqn:Hk; [|discriminate].
  destruct (Z.eqb_spec k 0) as [|Hk0]; [discriminate|].
  set (c := _collision_count (self w)) in *.
  set (saves := if c mod k =? 0
                then [EvSaveWeights
                        ("./src/assets/models/model_" ++ str c
                           ++ ".weights.h5")]
                else []).
  set (w1 := with_trace (trace w ++ saves) w).
  assert (H1 : (if c mod k =? 0 then _save_model_increment else ret tt) w
               = (Ok tt, w1)).
  { unfold w1, saves. destruct (c mod k =? 0); [reflexivity|].
    unfold ret. rewrite app_nil_r. now destruct w. }
  rewrite (bind_run _ _ _ _ _ H1) in H.
  assert (Hw1 : self w1 = self w /\ trace w1 = trace w ++ saves)
    by now split.
  clearbody w1. destruct Hw1 as (Hs1 & Ht1).
  unfold bind at 1, get_self at 1, gets at 1 in H. rewrite Hs1 in H.
  unfold bind at 1 in H. cbn [andb].
  exists saves.
  destruct (_training_model (self w)) eqn:Htm.
  - destruct (_train_model w1) as [[[]|e] w2] eqn:ET; [|discriminate].
    apply _train_model_pass in ET. destruct ET as (evs & Ht & Hp & Hc).
    cbn in H. injection H as <-. unfold config. simpl_world.
    exists evs. rewrite Ht, Ht1, <- app_assoc.
    unfold control_state in Hc. rewrite Hs1 in Hc. unfold c.
    splits; try congruence. exists k. now splits.
  - cbn in H. injection H as <-. unfold config. simpl_world.
    exists []. rewrite Ht1, Hs1, app_nil_r.
    splits; try reflexivity. exists k. now splits.
Qed.


Lemma config_fields (a b : QLearningAgent) :
  config a = config b ->
  input_shape a = input_shape b /\ _qlearn_params a = _qlearn_params b
  /\ _debug a = _debug b /\ _training_model a = _training_model b
  /\ _train_each_step a = _train_each_step b
  /\ _simulator a = _simulator b /\ _save_after a = _save_after b.
Proof.
  unfold config. intros H. injection H. intros. splits; assumption.
Qed.

Lemma _handle_reward_run (rew : Z) (rc : bool) (w : World) :
  let a := self w in
  let p := _qlearn_params a in
  let starved :=
    negb rc && (_steps_without_reward a + 1
                >=? fst (input_shape a) * snd (input_shape a)) in
  exists w',
    _handle_reward rew rc w
    = (Ok (if rc
           then (if _rewarded_currently a then rew - (reward p - other p)
                 else rew)
           else (if starved then rew + wall p else rew), starved), w')
    /\ trace w' = trace w
    /\ config (self w') = config a
    /\ _current_state (self w') = _current_state a
    /\ _current_action (self w') = _current_action a
    /\ _collision_count (self w') = _collision_count a
    /\ replay_memory (self w') = replay_memory a
    /\ _model (self w') = _model a
    /\ _rewarded_currently (self w') = rc
    /\ _steps_without_reward (self w')
       = (if rc then 0 else _steps_without_reward a + 1).
Proof.
  intros a p starved. subst a p starved. destruct rc; cbn [negb andb].
  - apply _handle_reward_on_reward.
  - apply _handle_reward_off_reward.
Qed.

Lemma _handle_training_off (w : World) :
  _training_model (self w) = false -> _handle_training w = (Ok tt, w).
Proof.
  intros H. unfold _handle_training, bind, get_self, gets. now rewrite H.
Qed.

(** One tick that completes: what it logs, in order, and the agent it
    leaves. *)
Lemma update_Ok (inputs : tensor) (rc wc : bool) (w w' : World) act :
  update inputs rc wc w = (Ok act, w') ->
  let a := self w in
  let p := _qlearn_params a in
  let x := expand_dims inputs in
  let base := if wc then wall p else if rc then reward p else other p in
  let starved :=
    negb rc && (_steps_without_reward a + 1
                >=? fst (input_shape a) * snd (input_shape a)) in
  let rew :=
    if rc
    then (if _rewarded_currently a then base - (reward p - other p) else base)
    else (if starved then base + wall p else base) in
  exists saves train1 train2 q,
    trace w'
    = trace w ++ saves ++ train1
        ++ match _current_state a with
           | Some s => [EvAdd {| current_state := s;
                                 current_action := _current_action a;
                                 res_reward := rew;
                                 next_state := x |}]
           | None => []
           end
        ++ train2 ++ [EvPredict x; EvDebug act rew q]
        ++ (if starved
            then (if _debug a then [EvDebugRestart] else []) ++ [EvReset]
            else [])
    /\ (if wc
        then exists k, _save_after a = Some k /\ k <> 0
               /\ saves = if _collision_count a mod k =? 0
                          then [EvSaveWeights
                                  ("./src/assets/models/model_"
                                     ++ str (_collision_count a)
                                     ++ ".weights.h5")]
                          else []
        else saves = [])
    /\ (if wc && _training_model a then training_pass train1
        else train1 = [])
    /\ (if _training_model a && _train_each_step a then training_pass train2
        else train2 = [])
    /\ (_training_model a = false ->
        q = predict (_model a) x /\ np_argmax q = Ok act)
    /\ config (self w') = config a
    /\ _current_state (self w') = Some x
    /\ _current_action (self w') = Some act
    /\ _rewarded_currently (self w') = rc
    /\ _steps_without_reward (self w')
       = (if rc || starved then 0 else _steps_without_reward a + 1)
    /\ _collision_count (self w')
       = (if wc then _collision_count a + 1 else _collision_count a).
Proof.
  intros H a p x base starved rew. unfold update in H. fold x in H.
  unfold bind at 1, get_self at 1, gets at 1 in H. fold a in H.
  destruct (_simulator a) as [sim|] eqn:Hsim; [|discriminate].
  unfold bind at 1, ret at 1 in H.
  rewrite (bind_run _ _ _ _ _ (_get_reward_run _ _ _)) in H.
  fold a p base in H.
  bind_inv H u1 w1 E1. destruct u1.
  apply _handle_collision_Ok in E1. cbv zeta in E1. fold a in E1.
  destruct E1 as (saves & train1 & Ht1 & Hsaves & Htrain1 & Hcf1 & Hcs1
                  & Hca1 & Hrc1 & Hst1 & Hcc1 & Hm1).
  destruct (_handle_reward_run base rc w1)
    as (w2 & E2 & Ht2 & Hcf2 & Hcs2 & Hca2 & Hcc2 & _ & Hm2 & Hrc2 & Hst2).
  rewrite (bind_run _ _ _ _ _ E2) in H. clear E2. cbn [fst snd] in H.
  pose proof (config_fields _ _ Hcf1) as (Hsh & Hp & Hdb & Htm & Hes & _ & _).
  rewrite Hsh, Hp, Hrc1, Hst1 in H. fold p starved rew in H.
  bind_inv H u3 w3 E3. destruct u3.
  apply _handle_experience_Ok in E3. cbv zeta in E3.
  destruct E3 as (Ht3 & Hcf3 & Hcs3 & Hca3 & Hcc3 & Hm3 & Hrc3 & Hst3).
  bind_inv H u4 w4 E4. destruct u4.
  pose proof E4 as E4'. apply _handle_training_Ok in E4. cbv zeta in E4.
  destruct E4 as (train2 & Ht4 & Htrain2 & Hc4).
  bind_inv H chosen w5 E5. destruct chosen as [act' q].
  apply decision_policy_Ok in E5. cbv zeta in E5.
  destruct E5 as (Hq & Ht5 & Harg & Hcf5 & Hcs5 & Hca5 & Hcc5 & Hrc5 & Hst5).
  unfold bind at 1, emit at 1, modify at 1 in H. cbn [fst snd] in H.
  set (w6 := with_trace _ w5) in H.
  assert (Hw6 : self w6 = self w5
                /\ trace w6 = trace w5 ++ [EvDebug act' rew q])
    by now split.
  clearbody w6. destruct Hw6 as (Hs6 & Ht6).
  bind_inv H u7 w7 E7. destruct u7. injection H as <- <-.
  pose proof (control_config _ _ Hc4) as Hcf4.
  assert (Hcf : config (self w5) = config a) by congruence.
  pose proof (config_fields _ _ Hcf) as (_ & _ & Hdb5 & Htm5 & Hes5 & _ & _).
  assert (Hfields4 : _current_state (self w4) = Some x
                     /\ _current_action (self w4) = _current_action a
                     /\ _rewarded_currently (self w4) = rc
                     /\ _steps_without_reward (self w4)
                        = (if rc then 0 else _steps_without_reward a + 1)
                     /\ _collision_count (self w4)
                        = (if wc then _collision_count a + 1
                           else _collision_count a)).
  { unfold control_state in Hc4. injection Hc4. intros. splits.
    - congruence.
    - congruence.
    - congruence.
    - rewrite <- Hst1, <- Hst2. congruence.
    - rewrite <- Hcc1. congruence. }
  destruct Hfields4 as (Hcs4 & Hca4 & Hrc4 & Hst4 & Hcc4).
  assert (Hstore : _current_state (self w2) = _current_state a
                   /\ _current_action (self w2) = _current_action a)
    by (split; congruence).
  destruct Hstore as (Hcs2' & Hca2').
  rewrite Hcs2', Hca2' in Ht3.
  assert (Htr6 : trace w6
                 = trace w ++ saves ++ train1
                     ++ match _current_state a with
                        | Some s => [EvAdd {| current_state := s;
                                              current_action := _current_action a;
                                              res_reward := rew;
                                              next_state := x |}]
                        | None => []
                        end
                     ++ train2 ++ [EvPredict x; EvDebug act' rew q]).
  { rewrite Ht6, Ht5, Ht4, Ht3, Ht2, Ht1. now rewrite <- !app_assoc. }
  assert (Hcfa3 : config (self w3) = config a) by congruence.
  assert (Hcfa4 : config (self w4) = config a) by congruence.
  pose proof (config_fields _ _ Hcfa3) as (_ & _ & _ & Htm3 & Hes3 & _ & _).
  pose proof (config_fields _ _ Hcfa4) as (_ & _ & _ & Htm4 & _).
  rewrite Htm3, Hes3 in Htrain2.
  exists saves, train1, train2, q.
  assert (Hmodel : _training_model a = false ->
                   q = predict (_model a) x /\ np_argmax q = Ok act').
  { intros Hoff. split.
    - rewrite Hq. f_equal.
      assert (E : _handle_training w3 = (Ok tt, w3)).
      { apply _handle_training_off. congruence. }
      rewrite E in E4'. injection E4' as <-.
      rewrite Hm3, Hm2. now apply Hm1.
    - apply Harg. congruence. }
  assert (Hfields6 : config (self w6) = config a
                     /\ _current_state (self w6) = Some x
                     /\ _current_action (self w6) = Some act'
                     /\ _rewarded_currently (self w6) = rc
                     /\ _steps_without_reward (self w6)
                        = (if rc then 0 else _steps_without_reward a + 1)
                     /\ _collision_count (self w6)
                        = (if wc then _collision_count a + 1
                           else _collision_count a)).
  { rewrite Hs6. splits; congruence. }
  destruct Hfields6 as (Hcf6 & Hcs6 & Hca6 & Hrc6 & Hst6 & Hcc6).
  pose proof (config_fields _ _ Hcf6) as (_ & _ & Hdb6 & _).
  clearbody starved. destruct starved.
  - apply _request_restart_Ok in E7. cbv zeta in E7.
    destruct E7 as (Ht7 & Hcf7 & Hcs7 & Hca7 & Hcc7 & Hrc7 & Hst7).
    rewrite Ht7, Htr6, Hdb6, orb_true_r, <- !app_assoc.
    splits; auto; congruence.
  - injection E7 as <-. rewrite Htr6, orb_false_r, app_nil_r.
    splits; auto.
Qed.

End TickFacts.

(** ** Claims on the action selection and on the scheduler *)

Section PolicyClaims.

Context {B : Backend}.

(** C10: when [_training_model] is false, whatever [epsilon] and whatever
    the generator draws, the action chosen for an observation is the
    [np.argmax] of the model's prediction for it: the selection of lines
    169-173 returns it whenever the prediction is not empty, and so does
    every tick of [update] that completes. *)
Theorem not_training_returns_argmax
    (inputs : tensor) (rc wc : bool) (w : World) :
  _training_model (self w) = false ->
  let x := expand_dims inputs in
  let q := predict (_model (self w)) x in
  (q <> [] ->
   exists i w1, np_argmax q = Ok i
                /\ decision_policy x w = (Ok (i, q), w1))
  /\ (forall act w', update inputs rc wc w = (Ok act, w') ->
                     np_argmax q = Ok act).
Proof.
  intros Hoff x q. split.
  - intros Hq. unfold decision_policy.
    rewrite (bind_run _ _ _ _ _ (model_predict_run _ _)). fold q.
    destruct q as [|v q'] eqn:Eq; [contradiction|].
    unfold np_argmax. cbn [lift bind].
    unfold bind, lift, draw_rand, get_self, gets, set_self, modify, ret.
    cbn [self with_rands with_trace _training_model].
    rewrite Hoff, andb_false_r. eauto.
  - intros act w' H. apply update_Ok in H. cbv zeta in H.
    destruct H as (_ & _ & _ & q' & _ & _ & _ & _ & Hm & _).
    destruct (Hm Hoff) as [-> Ha]. exact Ha.
Qed.


(** C2, as amended: in a training pass the two training tensors always have
    [batch_size] rows, whatever the number of sampled experiences; the rows
    past the sampled ones are left as [np.zeros] made them, and the model is
    fitted once on all the rows.  In particular, with [batch_size >= 0] and
    a well-formed shape, the pass on an empty replay memory does not raise
    and fits the model on [batch_size] zero-filled rows. *)
Theorem training_tensors_have_batch_size_rows (w : World) :
  let a := self w in
  let sampled := fst (get_random_experiences (hd [] (perms w)) (batch_size a)
                        (replay_memory a)) in
  let zero_x := zeros (fst (input_shape a)) (snd (input_shape a)) in
  let zero_y := repeat vzero (Z.to_nat (num_outputs a)) in
  (forall w', _train_model w = (Ok tt, w') ->
     exists ps X Y,
       trace w' = trace w ++ map EvPredict ps ++ [EvFit X Y]
       /\ Z.of_nat (length X) = batch_size a
       /\ Z.of_nat (length Y) = batch_size a
       /\ (forall j, (length sampled <= j < length X)%nat ->
            nth_error X j = Some zero_x /\ nth_error Y j = Some zero_y)
       /\ _model (self w') = fit (_model a) X Y)
  /\ (_arr (replay_memory a) = [] ->
      0 <= batch_size a -> 0 <= fst (input_shape a) ->
      0 <= snd (input_shape a) -> 0 <= num_outputs a ->
      exists w',
        _train_model w = (Ok tt, w')
        /\ trace w'
           = trace w ++ [EvFit (repeat zero_x (Z.to_nat (batch_size a)))
                               (repeat zero_y (Z.to_nat (batch_size a)))]
        /\ _model (self w')
           = fit (_model a) (repeat zero_x (Z.to_nat (batch_size a)))
                            (repeat zero_y (Z.to_nat (batch_size a)))).
Proof.
  intros a sampled zero_x zero_y. split.
  - intros w' H. apply _train_model_Ok in H. cbv zeta in H.
    destruct H as (ps & X & Y & Ht & HX & HY & Hrows & Hm & _).
    exists ps, X, Y. now splits.
  - intros Harr Hbs Hw Hh Hn.
    assert (Hsampled : sampled = []).
    { unfold sampled, get_random_experiences. cbn [fst]. fold a.
      rewrite Harr.
      assert (Hsh : shuffle (hd [] (perms w)) (@nil Experience) = [])
        by (unfold shuffle; cbn; now destruct (hd [] (perms w))).
      rewrite Hsh. unfold slice0. destruct (_ <? 0); apply firstn_nil. }
    unfold _train_model.
    unfold bind at 1, get_self at 1, gets at 1.
    rewrite (bind_run _ _ _ _ _ (memory_sample_run _ _)).
    fold a sampled. rewrite Hsampled.
    unfold bind at 1, get_self at 1, gets at 1.
    cbn [self with_self with_perms set_replay_memory batch_size input_shape
         num_outputs].
    fold a zero_x zero_y. unfold np_zeros.
    cbn [existsb].
    rewrite !(proj2 (Z.ltb_ge _ 0)) by lia.
    cbn. eexists. splits; reflexivity.
Qed.

End PolicyClaims.

Section PolicyRuns.

#[local] Existing Instance toy.

(** Witness of C10: [epsilon = 1], a draw above it, training disabled. *)
Lemma not_training_returns_argmax_witness :
  let w := {| self := toy_agent 2 10 (Some 5) false false;
              perms := []; rands := [5]; choices := [2%nat]; times := [];
              trace := [] |} in
  _training_model (self w) = false
  /\ (predict (_model (self w)) (expand_dims 7) <> [] ->
      exists i w1,
        np_argmax (predict (_model (self w)) (expand_dims 7)) = Ok i
        /\ decision_policy (expand_dims 7) w
           = (Ok (i, predict (_model (self w)) (expand_dims 7)), w1))
  /\ (forall act w', update 7 false false w = (Ok act, w') ->
        np_argmax (predict (_model (self w)) (expand_dims 7)) = Ok act).
Proof.
  intros w. split; [reflexivity|].
  apply (not_training_returns_argmax (B := toy) 7 false false w).
  reflexivity.
Defined.

(** C4: an agent built with [save_after] left at its default [None], with
    the simulator attached; its first tick with a wall collision raises
    [TypeError] at the modulo of [_handle_collision], before anything is
    stored or any action is chosen. *)
Theorem wall_collision_with_default_save_after_raises :
  let w := toy_world (toy_agent 2 10 None true false) in
  fst (update 7 false true w) = Raise TypeError
  /\ trace (snd (update 7 false true w)) = []
  /\ _current_action (self (snd (update 7 false true w))) = None.
Proof. cbv zeta. repeat split. Qed.

(** Witness of C2 (amended): a fresh agent with [batch_size = 2], whose
    replay memory is empty. *)
Lemma training_tensors_have_batch_size_rows_witness :
  let w := toy_world (toy_agent 2 10 (Some 5) true false) in
  exists w',
    _train_model w = (Ok tt, w')
    /\ trace w' = trace w ++ [EvFit (repeat 0 2) (repeat (repeat 0 3) 2)]
    /\ _model (self w') = fit (_model (self w)) (repeat 0 2)
                             (repeat (repeat 0 3) 2).
Proof.
  intros w.
  apply (proj2 (training_tensors_have_batch_size_rows (B := toy) w));
    cbn; (reflexivity || lia).
Defined.

(** C2 as stated fails: on the empty replay memory of a fresh agent with
    [batch_size = 2], the training pass is not a no-op; it fits the model
    on tensors of two zero-filled rows, though no experience was sampled. *)
Lemma training_on_empty_memory_fits_zero_rows :
  let w := toy_world (toy_agent 2 10 (Some 5) true false) in
  fst (get_random_experiences [] 2 (replay_memory (self w))) = []
  /\ fst (_train_model w) = Ok tt
  /\ trace (snd (_train_model w)) = [EvFit [0; 0] [[0; 0; 0]; [0; 0; 0]]]
  /\ _model (self (snd (_train_model w))) <> _model (self w).
Proof. cbv zeta. repeat split. discriminate. Qed.

End PolicyRuns.

(** ** Reading the log of a run *)

Section LogFacts.

Context {B : Backend}.

Lemma shaped_log_quiet (pre rest : list event) :
  Forall quiet pre -> shaped_log (pre ++ rest) = shaped_log rest.
Proof.
  induction 1 as [|e pre He _ IH]; [reflexivity|].
  destruct e; cbn in He |- *; (exact IH || contradiction).
Qed.

Lemma reset_follows_quiet (pre rest : list event) :
  Forall quiet pre -> reset_follows (pre ++ rest) = reset_follows rest.
Proof.
  induction 1 as [|e pre He _ IH]; [reflexivity|].
  destruct e; cbn in He |- *; (exact IH || contradiction).
Qed.

Lemma training_pass_quiet (evs : list event) :
  training_pass evs -> Forall quiet evs.
Proof.
  intros (ps & X & Y & ->). apply Forall_app. split.
  - induction ps; cbn; constructor; cbn; auto.
  - constructor; cbn; auto.
Qed.

Lemma training_pass_saved (evs : list event) :
  training_pass evs -> saved evs = [].
Proof.
  intros (ps & X & Y & ->). apply saved_model_events.
  apply Forall_app. split.
  - apply Forall_model_event_predicts.
  - constructor; cbn; auto.
Qed.

(** What one completed tick adds to the log, as [shaped_log] reads it. *)
Lemma update_shaped (inputs : tensor) (rc wc : bool) (w w' : World) act :
  update inputs rc wc w = (Ok act, w') ->
  let a := self w in
  let p := _qlearn_params a in
  let base := if wc then wall p else if rc then reward p else other p in
  let starved :=
    negb rc && (_steps_without_reward a + 1
                >=? fst (input_shape a) * snd (input_shape a)) in
  let rew :=
    if rc
    then (if _rewarded_currently a then base - (reward p - other p) else base)
    else (if starved then base + wall p else base) in
  exists evs,
    trace w' = trace w ++ evs
    /\ (forall rest, reset_follows rest = false ->
          shaped_log (evs ++ rest) = (rew, starved) :: shaped_log rest
          /\ reset_follows (evs ++ rest) = false)
    /\ config (self w') = config a
    /\ _rewarded_currently (self w') = rc
    /\ _steps_without_reward (self w')
       = (if rc || starved then 0 else _steps_without_reward a + 1)
    /\ _collision_count (self w')
       = (if wc then _collision_count a + 1 else _collision_count a).
Proof.
  intros H a p base starved rew. apply update_Ok in H. cbv zeta in H.
  fold a p base starved rew in H.
  destruct H as (saves & train1 & train2 & q & Ht & Hsaves & Htr1 & Htr2 & _
                 & Hcf & _ & _ & Hrc & Hst & Hcc).
  set (store := match _current_state a with Some s => _ | None => _ end) in Ht.
  set (post := if starved then _ else _) in Ht.
  set (pre := saves ++ train1 ++ store ++ train2 ++ [EvPredict (expand_dims inputs)]).
  assert (Hpre : Forall quiet pre).
  { unfold pre. repeat (apply Forall_app; split).
    - destruct wc.
      + destruct Hsaves as (k & _ & _ & ->).
        destruct (_ =? 0); repeat constructor.
      + subst saves. constructor.
    - destruct (wc && _training_model a).
      + now apply training_pass_quiet.
      + subst train1. constructor.
    - unfold store. destruct (_current_state a); repeat constructor.
    - destruct (_training_model a && _train_each_step a).
      + now apply training_pass_quiet.
      + subst train2. constructor.
    - repeat constructor. }
  exists (pre ++ EvDebug act rew q :: post).
  split.
  { rewrite Ht. unfold pre. now rewrite <- !app_assoc. }
  split; [|now splits].
  intros rest Hrest. rewrite <- app_assoc.
  rewrite shaped_log_quiet, reset_follows_quiet by exact Hpre.
  cbn [app shaped_log reset_follows]. split; [|reflexivity].
  assert (Hpost : reset_follows (post ++ rest) = starved
                  /\ shaped_log (post ++ rest) = shaped_log rest).
  { unfold post. destruct starved; [|now split].
    destruct (_debug a); cbn; now split. }
  destruct Hpost as [-> ->]. reflexivity.
Qed.


Lemma run_ticks_cons_Ok (t : tensor * bool * bool) ticks (w w' : World) acts :
  run_ticks (t :: ticks) w = (Ok acts, w') ->
  exists act w1 acts',
    update (fst (fst t)) (snd (fst t)) (snd t) w = (Ok act, w1)
    /\ run_ticks ticks w1 = (Ok acts', w')
    /\ acts = act :: acts'.
Proof.
  destruct t as [[i rc] wc]. cbn [run_ticks fst snd]. intros H.
  bind_inv H act w1 E1. bind_inv H acts' w2 E2.
  injection H as <- <-. now exists act, w1, acts'.
Qed.

Lemma run_ticks_app (t1 t2 : list (tensor * bool * bool)) :
  forall (w w' : World) acts,
  run_ticks (t1 ++ t2) w = (Ok acts, w') ->
  exists a1 w1 a2,
    run_ticks t1 w = (Ok a1, w1)
    /\ run_ticks t2 w1 = (Ok a2, w')
    /\ acts = (a1 ++ a2)%list.
Proof.
  induction t1 as [|t t1 IH]; intros w w' acts H.
  - exists [], w, acts. now splits.
  - cbn [app] in H. apply run_ticks_cons_Ok in H.
    destruct H as (act & w1 & acts' & E1 & E2 & ->).
    apply IH in E2. destruct E2 as (a1 & w2 & a2 & E2 & E3 & ->).
    exists (act :: a1), w2, a2. splits; auto.
    destruct t as [[i rc] wc]. cbn [run_ticks fst snd] in E1 |- *.
    rewrite (bind_run _ _ _ _ _ E1), (bind_run _ _ _ _ _ E2). reflexivity.
Qed.

(** Ticks without any collision, short of the stagnation bound. *)
Lemma starving_run (obs : list tensor) :
  forall (w w' : World) acts,
  _steps_without_reward (self w) + Z.of_nat (length obs)
    < fst (input_shape (self w)) * snd (input_shape (self w)) ->
  run_ticks (map (fun i => (i, false, false)) obs) w = (Ok acts, w') ->
  exists evs,
    trace w' = trace w ++ evs
    /\ (forall rest, reset_follows rest = false ->
          shaped_log (evs ++ rest)
          = (repeat (other (_qlearn_params (self w)), false) (length obs)
               ++ shaped_log rest)%list
          /\ reset_follows (evs ++ rest) = false)
    /\ config (self w') = config (self w)
    /\ _steps_without_reward (self w')
       = _steps_without_reward (self w) + Z.of_nat (length obs).
Proof.
  induction obs as [|i obs IH]; intros w w' acts Hlt H.
  - injection H as <- <-. exists []. rewrite app_nil_r. cbn.
    splits; auto. lia.
  - cbn [map] in H. apply run_ticks_cons_Ok in H.
    destruct H as (act & w1 & acts' & E1 & E2 & ->). cbn [fst snd] in E1.
    apply update_shaped in E1. cbv zeta in E1. cbn [negb andb orb] in E1.
    cbn [length] in Hlt.
    destruct (Z.geb_spec (_steps_without_reward (self w) + 1)
                (fst (input_shape (self w)) * snd (input_shape (self w))))
      as [Hge|_] in E1; [lia|].
    destruct E1 as (evs1 & Ht1 & Hlog1 & Hcf1 & _ & Hst1 & _).
    pose proof (config_fields _ _ Hcf1) as (Hsh & Hp & _).
    apply IH in E2; [|rewrite Hst1, Hsh; lia].
    destruct E2 as (evs2 & Ht2 & Hlog2 & Hcf2 & Hst2).
    exists (evs1 ++ evs2)%list. split; [now rewrite Ht2, Ht1, <- app_assoc|].
    split; [|split; [congruence|rewrite Hst2, Hst1; cbn [length]; lia]].
    intros rest Hrest. rewrite <- app_assoc.
    destruct (Hlog2 rest Hrest) as [Hs2 Hr2].
    destruct (Hlog1 (evs2 ++ rest)%list Hr2) as [Hs1 Hr1].
    rewrite Hs1, Hs2, Hp. split; [reflexivity|exact Hr1].
Qed.

End LogFacts.

(** ** Claims on the reward shaping *)

Section ShapingClaims.

Context {B : Backend}.

(** C6: with the observation grid 10 x 10 and the stagnation counter at 0,
    in a run of 100 ticks without reward collision and without wall
    collision, the ticks 1 to 99 report the plain reward [other] and do not
    restart, and tick 100 reports [other + wall] and resets the simulator;
    the counter is back at 0 afterwards. *)
Theorem stagnation_restart_at_tick_100
    (obs : list tensor) (w w' : World) (acts : list nat) :
  input_shape (self w) = (10, 10) ->
  _steps_without_reward (self w) = 0 ->
  length obs = 100%nat ->
  run_ticks (map (fun i => (i, false, false)) obs) w = (Ok acts, w') ->
  let p := _qlearn_params (self w) in
  exists evs,
    trace w' = trace w ++ evs
    /\ shaped_log evs
       = (repeat (other p, false) 99 ++ [(other p + wall p, true)])%list
    /\ _steps_without_reward (self w') = 0.
Proof.
  intros Hshape Hsteps Hlen H p.
  rewrite <- (firstn_skipn 99 obs), map_app in H.
  apply run_ticks_app in H. destruct H as (a1 & w1 & a2 & E1 & E2 & _).
  assert (Hl1 : length (firstn 99 obs) = 99%nat)
    by (rewrite length_firstn; lia).
  apply starving_run in E1; [|rewrite Hshape, Hsteps, Hl1; cbn; lia].
  destruct E1 as (evs1 & Ht1 & Hlog1 & Hcf1 & Hst1).
  rewrite Hl1, Hsteps in Hst1. rewrite Hl1 in Hlog1.
  pose proof (config_fields _ _ Hcf1) as (Hsh & Hp & _).
  destruct (skipn 99 obs) as [|i [|j tl]] eqn:Hlast.
  - apply (f_equal (@length _)) in Hlast. rewrite length_skipn in Hlast.
    cbn in Hlast. lia.
  - cbn [map] in E2. apply run_ticks_cons_Ok in E2.
    destruct E2 as (act & w2 & acts' & E2 & E3 & _).
    injection E3 as _ <-. cbn [fst snd] in E2.
    apply update_shaped in E2. cbv zeta in E2. cbn [negb andb orb] in E2.
    rewrite Hst1, Hsh, Hshape, Hp in E2. cbn [fst snd] in E2.
    change (0 + Z.of_nat 99 + 1 >=? 10 * 10) with true in E2.
    destruct E2 as (evs2 & Ht2 & Hlog2 & _ & _ & Hst2 & _).
    exists (evs1 ++ evs2)%list.
    split; [now rewrite Ht2, Ht1, <- app_assoc|]. split; [|exact Hst2].
    destruct (Hlog2 [] eq_refl) as [Hs2 Hr2]. rewrite app_nil_r in Hs2, Hr2.
    destruct (Hlog1 evs2 Hr2) as [Hs1 _].
    rewrite Hs1, Hs2. reflexivity.
  - apply (f_equal (@length _)) in Hlast. rewrite length_skipn in Hlast.
    cbn in Hlast. lia.
Qed.

(** C7: with [reward = 20] and [other = -2], two consecutive ticks with a
    reward collision and no wall collision, the first one met off a reward,
    report the shaped rewards 20 and then -2, and neither restarts. *)
Theorem second_tick_on_a_reward_is_penalised
    (i1 i2 : tensor) (w w' : World) (acts : list nat) :
  reward (_qlearn_params (self w)) = 20 ->
  other (_qlearn_params (self w)) = -2 ->
  _rewarded_currently (self w) = false ->
  run_ticks [(i1, true, false); (i2, true, false)] w = (Ok acts, w') ->
  exists evs,
    trace w' = trace w ++ evs
    /\ shaped_log evs = [(20, false); (20 - (20 - (-2)), false)].
Proof.
  intros Hrew Hoth Hoff H.
  apply run_ticks_cons_Ok in H.
  destruct H as (act1 & w1 & acts1 & E1 & H & _). cbn [fst snd] in E1.
  apply run_ticks_cons_Ok in H.
  destruct H as (act2 & w2 & acts2 & E2 & H & _). cbn [fst snd] in E2.
  injection H as _ <-.
  apply update_shaped in E1, E2. cbv zeta in E1, E2.
  cbn [negb andb orb] in E1, E2.
  destruct E1 as (evs1 & Ht1 & Hlog1 & Hcf1 & Hrc1 & _).
  pose proof (config_fields _ _ Hcf1) as (_ & Hp & _).
  rewrite Hoff, Hrew in Hlog1. rewrite Hrc1, Hp, Hrew, Hoth in E2.
  destruct E2 as (evs2 & Ht2 & Hlog2 & _).
  exists (evs1 ++ evs2)%list.
  split; [now rewrite Ht2, Ht1, <- app_assoc|].
  destruct (Hlog2 [] eq_refl) as [Hs2 Hr2]. rewrite app_nil_r in Hs2, Hr2.
  destruct (Hlog1 evs2 Hr2) as [Hs1 _].
  rewrite Hs1, Hs2. reflexivity.
Qed.

End ShapingClaims.

(** ** Claim on the order of a tick *)

Section OrderClaims.

Context {B : Backend}.

(** C3, as amended: every tick that completes logs its effects in this
    order: on a wall collision the checkpoint (when the collision count is a
    multiple of [save_after]) and then the collision-triggered training pass
    (when training is enabled); then the storing of the experience for the
    previous state, if there is one, with the shaped reward; then the
    per-step training pass (when enabled); then the query of the model for
    the action and the message with the action and the shaped reward; last
    the reset of the simulator when the stagnation bound was reached.  The
    collision-triggered training thus runs before the experience of the
    tick is stored. *)
Theorem tick_effects_in_order
    (inputs : tensor) (rc wc : bool) (w w' : World) (act : nat) :
  update inputs rc wc w = (Ok act, w') ->
  let a := self w in
  let p := _qlearn_params a in
  let x := expand_dims inputs in
  let base := if wc then wall p else if rc then reward p else other p in
  let starved :=
    negb rc && (_steps_without_reward a + 1
                >=? fst (input_shape a) * snd (input_shape a)) in
  let rew :=
    if rc
    then (if _rewarded_currently a then base - (reward p - other p) else base)
    else (if starved then base + wall p else base) in
  exists saves train1 train2 q,
    trace w'
    = trace w ++ saves ++ train1
        ++ match _current_state a with
           | Some s => [EvAdd {| current_state := s;
                                 current_action := _current_action a;
                                 res_reward := rew;
                                 next_state := x |}]
           | None => []
           end
        ++ train2 ++ [EvPredict x; EvDebug act rew q]
        ++ (if starved
            then (if _debug a then [EvDebugRestart] else []) ++ [EvReset]
            else [])
    /\ (if wc
        then exists k, _save_after a = Some k /\ k <> 0
               /\ saves = if _collision_count a mod k =? 0
                          then [EvSaveWeights
                                  ("./src/assets/models/model_"
                                     ++ str (_collision_count a)
                                     ++ ".weights.h5")]
                          else []
        else saves = [])
    /\ (if wc && _training_model a then training_pass train1
        else train1 = [])
    /\ (if _training_model a && _train_each_step a then training_pass train2
        else train2 = []).
Proof.
  intros H a p x base starved rew. apply update_Ok in H. cbv zeta in H.
  destruct H as (saves & train1 & train2 & q & Ht & Hs & H1 & H2 & _).
  exists saves, train1, train2, q. now splits.
Qed.

End OrderClaims.

Section TickRuns.

#[local] Existing Instance toy.

(** Witness of C3 (amended): a wall collision at count 0, training enabled,
    a previous state at hand. *)
Lemma tick_effects_in_order_witness :
  let w := toy_world
             (set_current_action (Some 0%nat)
                (set_current_state (Some 6)
                   (toy_agent 2 10 (Some 5) true false))) in
  let w' := snd (update 7 false true w) in
  update 7 false true w = (Ok 1%nat, w')
  /\ exists saves train1 train2 q,
       trace w'
       = trace w ++ saves ++ train1
           ++ [EvAdd {| current_state := 6; current_action := Some 0%nat;
                        res_reward := -20; next_state := 7 |}]
           ++ train2 ++ [EvPredict 7; EvDebug 1 (-20) q] ++ []
       /\ (exists k, Some 5 = Some k /\ k <> 0
             /\ saves
                = [EvSaveWeights "./src/assets/models/model_0.weights.h5"])
       /\ training_pass train1
       /\ train2 = [].
Proof.
  intros w w'.
  assert (Hrun : update 7 false true w = (Ok 1%nat, w'))
    by (vm_compute; reflexivity).
  split; [exact Hrun|].
  pose proof (tick_effects_in_order (B := toy) 7 false true w w' 1%nat Hrun)
    as H.
  cbv zeta in H. destruct H as (saves & train1 & train2 & q & Ht & Hs & H1 & H2).
  exists saves, train1, train2, q. splits.
  - exact Ht.
  - exact Hs.
  - exact H1.
  - exact H2.
Defined.

(** C3 as stated fails: in that tick the checkpoint is saved and the model
    is fitted, on a batch drawn from the still empty replay memory, before
    the experience of the tick is stored. *)
Lemma collision_training_precedes_store :
  let w := toy_world
             (set_current_action (Some 0%nat)
                (set_current_state (Some 6)
                   (toy_agent 2 10 (Some 5) true false))) in
  let stored : Experience :=
    {| current_state := 6; current_action := Some 0%nat;
       res_reward := -20; next_state := 7 |} in
  let tr := trace (snd (update 7 false true w)) in
  fst (update 7 false true w) = Ok 1%nat
  /\ tr = [EvSaveWeights "./src/assets/models/model_0.weights.h5";
           EvFit [0; 0] [[0; 0; 0]; [0; 0; 0]];
           EvAdd stored;
           EvPredict 7;
           EvDebug 1 (-20) [7; 14; 1]]
  /\ ~ (exists pre post X Y,
          tr = pre ++ EvFit X Y :: post /\ In (EvAdd stored) pre).
Proof.
  intros w stored tr.
  assert (Htr : tr = [EvSaveWeights "./src/assets/models/model_0.weights.h5";
                      EvFit [0; 0] [[0; 0; 0]; [0; 0; 0]];
                      EvAdd stored;
                      EvPredict 7;
                      EvDebug 1 (-20) [7; 14; 1]]) by reflexivity.
  split; [reflexivity|]. split; [exact Htr|].
  rewrite Htr. clear Htr. subst stored.
  intros (pre & post & X & Y & Heq & Hin).
  destruct pre as [|e1 pre]; [destruct Hin|].
  injection Heq as <- Heq.
  destruct pre as [|e2 pre]; [destruct Hin as [Hin|[]]; discriminate|].
  injection Heq as <- Heq.
  destruct pre as [|e3 pre]; [discriminate|]. injection Heq as <- Heq.
  destruct pre as [|e4 pre]; [discriminate|]. injection Heq as <- Heq.
  destruct pre as [|e5 pre]; [discriminate|]. injection Heq as <- Heq.
  destruct pre; discriminate.
Qed.

(** Witness of C6: 100 ticks on the same observation. *)
Lemma stagnation_restart_at_tick_100_witness :
  let w := toy_world (toy_agent 2 10 (Some 5) true false) in
  let ticks := map (fun i => (i, false, false)) (repeat 7 100) in
  run_ticks ticks w = (Ok (repeat 1%nat 100), snd (run_ticks ticks w))
  /\ exists evs,
       trace (snd (run_ticks ticks w)) = trace w ++ evs
       /\ shaped_log evs
          = (repeat (-2, false) 99 ++ [(-2 + -20, true)])%list
       /\ _steps_without_reward (self (snd (run_ticks ticks w))) = 0.
Proof.
  intros w ticks.
  assert (Hrun : run_ticks ticks w
                 = (Ok (repeat 1%nat 100), snd (run_ticks ticks w)))
    by (vm_compute; reflexivity).
  split; [exact Hrun|].
  exact (stagnation_restart_at_tick_100 (B := toy) (repeat 7 100) w _ _
           eq_refl eq_refl eq_refl Hrun).
Defined.

(** Witness of C7: two ticks on a reward, from an agent as [__init__]
    builds it. *)
Lemma second_tick_on_a_reward_is_penalised_witness :
  let w := toy_world (toy_agent 2 10 (Some 5) true false) in
  let ticks := [(7, true, false); (8, true, false)] in
  run_ticks ticks w = (Ok [1%nat; 1%nat], snd (run_ticks ticks w))
  /\ exists evs,
       trace (snd (run_ticks ticks w)) = trace w ++ evs
       /\ shaped_log evs = [(20, false); (20 - (20 - (-2)), false)].
Proof.
  intros w ticks.
  assert (Hrun : run_ticks ticks w
                 = (Ok [1%nat; 1%nat], snd (run_ticks ticks w)))
    by (vm_compute; reflexivity).
  split; [exact Hrun|].
  exact (second_tick_on_a_reward_is_penalised (B := toy) 7 8 w _ _
           eq_refl eq_refl eq_refl Hrun).
Defined.

End TickRuns.

(** ** Claim on the checkpoints *)

Section SchedulerClaims.

Context {B : Backend}.

Lemma update_saved (inputs : tensor) (rc wc : bool) (w w' : World) act :
  update inputs rc wc w = (Ok act, w') ->
  let a := self w in
  (if wc
   then exists k, _save_after a = Some k /\ k <> 0
          /\ saved (trace w')
             = (saved (trace w)
                  ++ (if _collision_count a mod k =? 0
                      then ["./src/assets/models/model_"
                              ++ str (_collision_count a)
                              ++ ".weights.h5"]%string
                      else []))%list
   else saved (trace w') = saved (trace w))
  /\ config (self w') = config a
  /\ _collision_count (self w')
     = (if wc then _collision_count a + 1 else _collision_count a).
Proof.
  intros H a. apply update_Ok in H. cbv zeta in H. fold a in H.
  destruct H as (saves & train1 & train2 & q & Ht & Hsaves & Htr1 & Htr2 & _
                 & Hcf & _ & _ & _ & _ & Hcc).
  split; [|now split].
  match type of Ht with
  | _ = (_ ++ _ ++ _ ++ ?st ++ _ ++ _ ++ ?po)%list =>
      set (store := st) in Ht; set (post := po) in Ht
  end.
  assert (H1 : saved train1 = []).
  { destruct (wc && _training_model a);
      [now apply training_pass_saved|now subst]. }
  assert (H2 : saved train2 = []).
  { destruct (_training_model a && _train_each_step a);
      [now apply training_pass_saved|now subst]. }
  assert (H3 : saved store = [])
    by (unfold store; now destruct (_current_state a)).
  assert (H4 : saved post = []).
  { unfold post. destruct (negb rc && _); [|reflexivity].
    now destruct (_debug a). }
  assert (Hsv : saved (trace w') = (saved (trace w) ++ saved saves)%list).
  { rewrite Ht, !saved_app, H1, H2, H3, H4. cbn [saved app].
    now rewrite app_nil_r. }
  destruct wc.
  - destruct Hsaves as (k & Hk & Hk0 & ->). exists k. splits; auto.
    rewrite Hsv. destruct (_ =? 0); reflexivity.
  - subst saves. now rewrite Hsv, app_nil_r.
Qed.


(** The checkpoints of a completed run that starts with the collision count
    at [c0]. *)
Lemma run_saved (ticks : list (tensor * bool * bool)) :
  forall (w w' : World) acts (c0 : nat),
  _save_after (self w) = Some 5 ->
  _collision_count (self w) = Z.of_nat c0 ->
  run_ticks ticks w = (Ok acts, w') ->
  saved (trace w')
  = (saved (trace w)
       ++ map (fun c => ("./src/assets/models/model_" ++ str c
                           ++ ".weights.h5")%string)
            (filter (fun c => c mod 5 =? 0)
               (map Z.of_nat (seq c0 (wall_collisions ticks)))))%list
  /\ _collision_count (self w') = Z.of_nat (c0 + wall_collisions ticks).
Proof.
  induction ticks as [|t ticks IH]; intros w w' acts c0 H5 Hc H.
  - injection H as <- <-. cbn. rewrite app_nil_r, Nat.add_0_r. now split.
  - apply run_ticks_cons_Ok in H.
    destruct H as (act & w1 & acts' & E1 & E2 & _).
    destruct t as [[i rc] wc]. cbn [fst snd] in E1.
    apply update_saved in E1. cbv zeta in E1.
    destruct E1 as (Hsv & Hcf & Hcc).
    pose proof (config_fields _ _ Hcf) as (_ & _ & _ & _ & _ & _ & Hsa).
    rewrite H5 in Hsa. unfold wall_collisions. cbn [filter snd].
    destruct wc; cbn [length].
    + destruct Hsv as (k & Hk & _ & Hsv). rewrite H5 in Hk.
      injection Hk as <-. rewrite Hc in Hsv, Hcc.
      destruct (IH w1 w' acts' (S c0) Hsa) as [Hs Hn]; [lia|exact E2|].
      fold (wall_collisions ticks) in Hs, Hn |- *.
      rewrite Hs, Hsv, Hn, <- app_assoc. cbn [seq map filter].
      split; [|f_equal; lia].
      f_equal. now destruct (Z.of_nat c0 mod 5 =? 0).
    + rewrite Hc in Hcc.
      destruct (IH w1 w' acts' c0 Hsa Hcc E2) as [Hs Hn].
      fold (wall_collisions ticks) in Hs, Hn |- *.
      rewrite Hs, Hsv, Hn. now split.
Qed.

(** C8: with [save_after = 5], a wall collision met with the collision
    count at [c] saves exactly one checkpoint, named after [c], when [c] is
    a multiple of 5, and saves none otherwise, whatever the outcome of the
    training that follows; the count is tested before it is incremented,
    and a collision handled to its end takes it to [c + 1].  Hence in every
    completed run of ticks that starts with the count at 0, the checkpoints
    saved are those of the wall collisions numbered 0, 5, 10, ..., each
    named after its number, and the count ends at the number of wall
    collisions. *)
Theorem checkpoint_on_every_fifth_collision (w : World) :
  _save_after (self w) = Some 5 ->
  let c := _collision_count (self w) in
  let out := _handle_collision true w in
  (saved (trace (snd out))
   = (saved (trace w)
        ++ (if c mod 5 =? 0
            then ["./src/assets/models/model_" ++ str c ++ ".weights.h5"]%string
            else []))%list
   /\ (fst out = Ok tt -> _collision_count (self (snd out)) = c + 1))
  /\ (forall ticks acts w',
        c = 0 ->
        run_ticks ticks w = (Ok acts, w') ->
        saved (trace w')
        = (saved (trace w)
             ++ map (fun n => ("./src/assets/models/model_" ++ str n
                                 ++ ".weights.h5")%string)
                  (filter (fun n => n mod 5 =? 0)
                     (map Z.of_nat (seq 0 (wall_collisions ticks)))))%list
        /\ _collision_count (self w') = Z.of_nat (wall_collisions ticks)).
Proof.
  intros H5 c out. split.
  - apply (_handle_collision_saves 5 w (fst out) (snd out) H5); [lia|].
    unfold out. now destruct (_handle_collision true w).
  - intros ticks acts w' Hc H.
    now apply (run_saved ticks w w' acts 0%nat H5 Hc).
Qed.

End SchedulerClaims.

Section SchedulerRuns.

#[local] Existing Instance toy.

(** Witness of C8: twelve ticks from a fresh agent, eleven of them with a
    wall collision; the collisions numbered 0, 5 and 10 save. *)
Lemma checkpoint_on_every_fifth_collision_witness :
  let w := toy_world (toy_agent 2 10 (Some 5) true false) in
  let ticks := (7, false, false) :: map (fun i => (i, false, true))
                                      (repeat 8 11) in
  _save_after (self w) = Some 5
  /\ run_ticks ticks w = (Ok (repeat 1%nat 12), snd (run_ticks ticks w))
  /\ saved (trace (snd (run_ticks ticks w)))
     = ["./src/assets/models/model_0.weights.h5";
        "./src/assets/models/model_5.weights.h5";
        "./src/assets/models/model_10.weights.h5"]%string
  /\ _collision_count (self (snd (run_ticks ticks w))) = 11.
Proof.
  intros w ticks.
  assert (Hrun : run_ticks ticks w
                 = (Ok (repeat 1%nat 12), snd (run_ticks ticks w)))
    by (vm_compute; reflexivity).
  split; [reflexivity|]. split; [exact Hrun|].
  exact (proj2 (checkpoint_on_every_fifth_collision (B := toy) w eq_refl)
           ticks _ _ eq_refl Hrun).
Defined.

End SchedulerRuns.

(** * Further properties *)

(** ** The replay memory on its own *)

Section ReplayMemoryMore.

Context {B : Backend}.

Lemma run_ops_app (ops1 ops2 : list mem_op) (m : ReplayMemory) :
  run_ops (ops1 ++ ops2) m = run_ops ops2 (run_ops ops1 m).
Proof. unfold run_ops. apply fold_left_app. Qed.

Lemma shuffle_nil (p : list nat) : shuffle p (@nil Experience) = [].
Proof. unfold shuffle. cbn. now destruct p. Qed.

(** Additions alone, on a memory of capacity [k >= 1] that holds [held]. *)
Lemma adds_keep_latest (k : nat) (l : list Experience) :
  forall m,
  (1 <= k)%nat ->
  _max_size m = Some (Z.of_nat k) -> size_ok m ->
  (length (_arr m) <= k)%nat ->
  let m' := run_ops (map OpAdd l) m in
  _arr m' = skipn (length (_arr m ++ l) - k) (_arr m ++ l)
  /\ _max_size m' = Some (Z.of_nat k) /\ size_ok m'.
Proof.
  induction l as [|ex l IH]; intros m Hk Hmax Hok Hlen; cbv zeta.
  - cbn [map run_ops fold_left]. rewrite app_nil_r.
    replace (length (_arr m) - k)%nat with 0%nat by lia. now splits.
  - cbn [map]. change (run_ops (OpAdd ex :: map OpAdd l) m)
      with (run_ops (map OpAdd l) (apply_op m (OpAdd ex))).
    pose proof (apply_op_size_ok m (OpAdd ex) Hok) as Hok1.
    pose proof (apply_op_max_size m (OpAdd ex)) as Hmax1.
    rewrite Hmax in Hmax1.
    unfold size_ok in Hok.
    assert (Harr : (length (_arr m) < k)%nat
                   /\ _arr (apply_op m (OpAdd ex)) = (_arr m ++ [ex])%list
                   \/ length (_arr m) = k
                      /\ exists x tl, _arr m = x :: tl
                           /\ _arr (apply_op m (OpAdd ex)) = (tl ++ [ex])%list).
    { cbn [apply_op]. unfold add_experience, at_capacity. rewrite Hmax.
      destruct (Z.eqb_spec (_size m) (Z.of_nat k)) as [E|E].
      - right. split; [lia|].
        destruct (_arr m) as [|x tl]; [cbn in *; lia|].
        exists x, tl. now split.
      - left. split; [lia|reflexivity]. }
    destruct Harr as [[Hlt Ha]|[Heq (x & tl & Hm & Ha)]].
    + destruct (IH (apply_op m (OpAdd ex)) Hk Hmax1 Hok1) as (H1 & H2 & H3).
      { rewrite Ha, length_app. cbn. lia. }
      rewrite H1, Ha, <- app_assoc. now splits.
    + destruct (IH (apply_op m (OpAdd ex)) Hk Hmax1 Hok1) as (H1 & H2 & H3).
      { rewrite Ha, length_app. rewrite Hm in Heq. cbn in *. lia. }
      rewrite H1, Ha, Hm, <- app_assoc. split; [|now split].
      rewrite Hm in Heq. cbn [length] in Heq.
      rewrite !length_app. cbn [app length].
      match goal with
      | |- skipn ?n1 _ = skipn ?n2 _ =>
          replace n1 with (length l) by lia;
          replace n2 with (S (length l)) by lia
      end.
      reflexivity.
Qed.


(** X1: without sampling in between, a memory of capacity [max_size >= 1]
    is a queue: after any additions it holds the latest [max_size] of them
    (all of them while there are fewer), oldest first, and its size is the
    smaller of their number and [max_size]. *)
Theorem additions_alone_keep_the_latest
    (max_size : Z) (l : list Experience) :
  1 <= max_size ->
  let m := run_ops (map OpAdd l) (ReplayMemory_init (Some max_size)) in
  _arr m = skipn (length l - Z.to_nat max_size) l
  /\ _size m = Z.min (Z.of_nat (length l)) max_size.
Proof.
  intros Hk m.
  destruct (adds_keep_latest (Z.to_nat max_size) l
              (ReplayMemory_init (Some max_size))) as (Ha & _ & Hok).
  - lia.
  - cbn. f_equal. lia.
  - reflexivity.
  - cbn. lia.
  - cbn [ReplayMemory_init _arr app] in Ha. fold m in Ha, Hok.
    split; [exact Ha|].
    unfold size_ok in Hok. rewrite Hok, Ha, length_skipn. lia.
Qed.

Lemma apply_op_incl (m : ReplayMemory) (o : mem_op) :
  incl (_arr (apply_op m o)) (_arr m ++ added [o]).
Proof.
  destruct o as [ex|p n]; cbn [apply_op added flat_map].
  - rewrite app_nil_r. unfold add_experience.
    destruct (at_capacity m).
    + destruct (_arr m) as [|x tl] eqn:E; [rewrite E; apply incl_appl,
        incl_refl|].
      cbn [_arr]. intros e He. apply in_app_or in He.
      apply in_or_app. destruct He as [He|He]; [left; now right|now right].
    + cbn [_arr]. apply incl_refl.
  - cbn [get_random_experiences snd _arr]. rewrite app_nil_r.
    intros e He.
    apply (Permutation_in _ (shuffle_Permutation p (_arr m))). exact He.
Qed.

Lemma added_app (ops1 ops2 : list mem_op) :
  added (ops1 ++ ops2) = (added ops1 ++ added ops2)%list.
Proof. unfold added. apply flat_map_app. Qed.

Lemma run_ops_incl (ops : list mem_op) :
  forall m, incl (_arr (run_ops ops m)) (_arr m ++ added ops).
Proof.
  induction ops as [|o ops IH]; intros m.
  - cbn. rewrite app_nil_r. apply incl_refl.
  - change (run_ops (o :: ops) m) with (run_ops ops (apply_op m o)).
    change (o :: ops) with ([o] ++ ops)%list. rewrite added_app.
    intros e He. apply IH in He. apply in_app_or in He.
    rewrite app_assoc. apply in_or_app.
    destruct He as [He|He]; [left; now apply apply_op_incl|now right].
Qed.

Lemma run_ops_unbounded (ops : list mem_op) :
  forall m, _max_size m = None ->
  Permutation (_arr (run_ops ops m)) (_arr m ++ added ops)
  /\ _size (run_ops ops m) = _size m + Z.of_nat (length (added ops)).
Proof.
  induction ops as [|o ops IH]; intros m Hm.
  - cbn. rewrite app_nil_r. split; [reflexivity|lia].
  - change (run_ops (o :: ops) m) with (run_ops ops (apply_op m o)).
    change (o :: ops) with ([o] ++ ops)%list. rewrite added_app.
    destruct (IH (apply_op m o)) as [Hp Hs];
      [now rewrite apply_op_max_size|].
    rewrite Hp, Hs, length_app, app_assoc.
    destruct o as [ex|p n]; cbn [apply_op added flat_map].
    + unfold add_experience, at_capacity. rewrite Hm. cbn.
      split; [reflexivity|lia].
    + cbn [get_random_experiences snd _arr _size app length].
      rewrite app_nil_r. split; [|lia].
      apply Permutation_app_tail, shuffle_Permutation.
Qed.

(** X2: whatever the capacity and the order of additions and samplings,
    the memory holds only experiences that were added to it; built without
    capacity, it holds a rearrangement of all of them, and its size is
    their number. *)
Theorem memory_holds_what_was_added (cap : option Z) (ops : list mem_op) :
  incl (_arr (run_ops ops (ReplayMemory_init cap))) (added ops)
  /\ Permutation (_arr (run_ops ops (ReplayMemory_init None))) (added ops)
  /\ _size (run_ops ops (ReplayMemory_init None))
     = Z.of_nat (length (added ops)).
Proof.
  split; [apply (run_ops_incl ops (ReplayMemory_init cap))|].
  apply (run_ops_unbounded ops (ReplayMemory_init None)). reflexivity.
Qed.

(** X3: a memory built with [max_size = 0] accepts nothing: whatever was
    tried on it before, it is empty and [add_experience] raises
    [IndexError]. *)
Theorem zero_capacity_rejects_every_addition
    (ops : list mem_op) (ex : Experience) :
  let m := run_ops ops (ReplayMemory_init (Some 0)) in
  add_experience ex m = Raise IndexError /\ _arr m = [] /\ _size m = 0.
Proof.
  cbv zeta.
  assert (H : forall m, _max_size m = Some 0 -> _arr m = [] -> _size m = 0 ->
              _max_size (run_ops ops m) = Some 0
              /\ _arr (run_ops ops m) = [] /\ _size (run_ops ops m) = 0).
  { induction ops as [|o ops IH]; intros m H1 H2 H3; [now splits|].
    change (run_ops (o :: ops) m) with (run_ops ops (apply_op m o)).
    apply IH; destruct o as [e|p n]; cbn [apply_op];
      unfold add_experience, at_capacity, get_random_experiences;
      rewrite ?H1, ?H2, ?H3; cbn; auto using shuffle_nil. }
  destruct (H (ReplayMemory_init (Some 0))) as (H1 & H2 & H3);
    try reflexivity.
  split; [|now split].
  unfold add_experience, at_capacity. now rewrite H1, H2, H3.
Qed.

(** X4: sampling never adds or drops an experience: it leaves the capacity
    and the size as they are and the stored list rearranged; the batch is
    the front of the rearranged list, and all of it when at least [size]
    experiences are asked for. *)
Theorem sampling_only_reorders
    (p : list nat) (n : Z) (m : ReplayMemory) :
  let out := get_random_experiences p n m in
  _max_size (snd out) = _max_size m
  /\ _size (snd out) = _size m
  /\ Permutation (_arr (snd out)) (_arr m)
  /\ (exists k, fst out = firstn k (_arr (snd out)))
  /\ (size_ok m -> _size m <= n -> fst out = _arr (snd out)).
Proof.
  cbv zeta. unfold get_random_experiences. cbn [fst snd _max_size _size _arr].
  splits; try reflexivity.
  - apply shuffle_Permutation.
  - unfold slice0. destruct (_ <? 0); eauto.
  - intros Hok Hn. unfold size_ok in Hok.
    destruct (Z.ltb_spec n (_size m)); [lia|].
    unfold slice0. destruct (Z.ltb_spec (_size m) 0); [lia|].
    apply firstn_all2. rewrite shuffle_length. lia.
Qed.

(** X5: a negative sample count is taken as a slice bound from the end: on
    a memory of [size] experiences, [get_random_experiences n] with [n < 0]
    returns [size + n] of them (none when that is negative), not an empty
    batch. *)
Theorem negative_sample_count_counts_from_the_end
    (cap : option Z) (ops : list mem_op) (p : list nat) (n : Z) :
  n < 0 ->
  let m := run_ops ops (ReplayMemory_init cap) in
  Z.of_nat (length (fst (get_random_experiences p n m)))
  = Z.max 0 (_size m + n).
Proof.
  intros Hn m.
  assert (Hok : size_ok m) by (apply run_ops_size_ok; reflexivity).
  unfold size_ok in Hok.
  unfold get_random_experiences. cbn [fst].
  destruct (Z.ltb_spec n (_size m)); [|lia].
  unfold slice0. destruct (Z.ltb_spec n 0); [|lia].
  rewrite length_firstn, shuffle_length. lia.
Qed.

(** X6: the counter [_size] always equals the length of the stored list,
    after any additions and samplings, additions that raise included. *)
Theorem counter_matches_stored_list (cap : option Z) (ops : list mem_op) :
  let m := run_ops ops (ReplayMemory_init cap) in
  _size m = Z.of_nat (length (_arr m)) /\ 0 <= _size m.
Proof.
  intros m.
  assert (Hok : size_ok m) by (apply run_ops_size_ok; reflexivity).
  unfold size_ok in Hok. split; [exact Hok|lia].
Qed.

End ReplayMemoryMore.

(** Witness of X1: three additions into a memory of capacity 2. *)
Lemma additions_alone_keep_the_latest_witness :
  1 <= 2
  /\ let m := run_ops (map OpAdd [ex1; ex2; ex3])
                (ReplayMemory_init (Some 2)) in
     _arr m = skipn (length [ex1; ex2; ex3] - Z.to_nat 2) [ex1; ex2; ex3]
     /\ _size m = Z.min (Z.of_nat (length [ex1; ex2; ex3])) 2.
Proof.
  split; [lia|].
  apply (additions_alone_keep_the_latest (B := toy) 2 [ex1; ex2; ex3]).
  lia.
Defined.

(** Witness of X5: three experiences stored, [-1] asked for. *)
Lemma negative_sample_count_counts_from_the_end_witness :
  -1 < 0
  /\ let m := run_ops [OpAdd ex1; OpAdd ex2; OpAdd ex3]
                (ReplayMemory_init None) in
     Z.of_nat (length (fst (get_random_experiences [] (-1) m)))
     = Z.max 0 (_size m + -1).
Proof.
  split; [lia|].
  apply (negative_sample_count_counts_from_the_end (B := toy) None
           [OpAdd ex1; OpAdd ex2; OpAdd ex3] [] (-1)).
  lia.
Defined.

(** ** What no tick does, whatever its outcome *)

Section TickInvariants.

Context {B : Backend}.

Lemma evolves_refl (a : QLearningAgent) : evolves a a.
Proof. unfold evolves. splits; auto. now exists []. Qed.

Lemma evolves_trans (a b c : QLearningAgent) :
  evolves a b -> evolves b c -> evolves a c.
Proof.
  intros (Hc1 & (ops1 & Hm1) & Ht1) (Hc2 & (ops2 & Hm2) & Ht2).
  pose proof (config_fields _ _ Hc1) as (_ & _ & _ & Htm & _).
  unfold evolves. splits.
  - congruence.
  - exists (ops1 ++ ops2)%list. now rewrite run_ops_app, <- Hm1.
  - intros H. rewrite Ht2, Ht1; congruence.
Qed.

Lemma tracks_same_self {A : Type} (c : M World A) :
  (forall w, self (snd (c w)) = self w) -> tracks c.
Proof.
  intros H w r w' E. specialize (H w). rewrite E in H. cbn in H.
  rewrite H. apply evolves_refl.
Qed.

Lemma tracks_bind {A C : Type} (c : M World A) (k : A -> M World C) :
  tracks c -> (forall a, tracks (k a)) -> tracks (bind c k).
Proof.
  intros Hc Hk w r w' E. unfold bind in E.
  destruct (c w) as [[a|e] w1] eqn:E1.
  - eapply evolves_trans; [eapply Hc, E1|eapply Hk, E].
  - injection E as <- <-. eapply Hc, E1.
Qed.

Lemma tracks_ret {A : Type} (a : A) : tracks (ret a).
Proof. now apply tracks_same_self. Qed.

Lemma tracks_raise {A : Type} (e : PyErr) : tracks (@raise World A e).
Proof. now apply tracks_same_self. Qed.

Lemma tracks_lift {A : Type} (r : result A) : tracks (lift r).
Proof. now apply tracks_same_self. Qed.

Lemma tracks_get_self : tracks get_self.
Proof. now apply tracks_same_self. Qed.

Lemma tracks_emit (e : event) : tracks (emit e).
Proof. now apply tracks_same_self. Qed.

Lemma tracks_set_self (f : QLearningAgent -> QLearningAgent) :
  (forall a, evolves a (f a)) -> tracks (set_self f).
Proof. intros H w r w' E. injection E as _ <-. apply H. Qed.

Lemma evolves_field (a a' : QLearningAgent) :
  config a' = config a -> replay_memory a' = replay_memory a ->
  _model a' = _model a -> evolves a a'.
Proof. intros H1 H2 H3. unfold evolves. splits; auto. now exists []. Qed.

Lemma tracks_model_predict (x : tensor) : tracks (model_predict x).
Proof. now apply tracks_same_self. Qed.

Lemma tracks_memory_add (ex : Experience) : tracks (memory_add ex).
Proof.
  intros w r w' E.
  unfold memory_add, bind, emit, modify, get_self, gets, lift, set_self in E.
  cbn in E.
  destruct (add_experience ex (replay_memory (self w))) as [m|e] eqn:Ea;
    injection E as <- <-; cbn; [|apply evolves_refl].
  unfold evolves. splits; auto.
  exists [OpAdd ex]. cbn. now rewrite Ea.
Qed.

(** The replay memory after a training pass, whatever its outcome. *)
Lemma _train_model_memory (w : World) r w' :
  _train_model w = (r, w') ->
  replay_memory (self w')
  = snd (get_random_experiences (hd [] (perms w)) (batch_size (self w))
           (replay_memory (self w)))
  /\ (r <> Ok tt -> _model (self w') = _model (self w)).
Proof.
  unfold _train_model. intros H.
  unfold bind at 1, get_self at 1, gets at 1 in H.
  rewrite (bind_run _ _ _ _ _ (memory_sample_run _ _)) in H.
  unfold bind at 1, get_self at 1, gets at 1 in H.
  cbn [self with_self with_perms set_replay_memory batch_size input_shape
       num_outputs] in H.
  set (m1 := snd (get_random_experiences _ _ _)) in *.
  set (w1 := with_self _ _) in H.
  assert (Hw1 : replay_memory (self w1) = m1
                /\ _model (self w1) = _model (self w)) by now split.
  clearbody w1. destruct Hw1 as (Hm & Hmo). rewrite <- Hm, <- Hmo.
  unfold bind at 1, lift at 1 in H.
  destruct (np_zeros _ _ _) as [X0|err] in H.
  2:{ injection H as <- <-. now split. }
  unfold bind at 1, lift at 1 in H.
  destruct (np_zeros _ _ _) as [Y0|err] in H.
  2:{ injection H as <- <-. now split. }
  unfold bind at 1 in H.
  destruct (train_rows _ _ _ _ _) as [[[X1 Y1]|err] w2] eqn:ET in H;
    apply train_rows_frame in ET; destruct ET as (Hs & _).
  - cbn in H. injection H as <- <-. cbn. rewrite Hs. now split.
  - injection H as <- <-. rewrite Hs. now split.
Qed.

Lemma _train_model_evolves (w : World) r w' :
  _training_model (self w) = true ->
  _train_model w = (r, w') -> evolves (self w) (self w').
Proof.
  intros Ht H. unfold evolves. splits.
  - apply control_config. eapply _train_model_control, H.
  - apply _train_model_memory in H. destruct H as [-> _].
    now exists [OpSample (hd [] (perms w)) (batch_size (self w))].
  - congruence.
Qed.

Lemma tracks_handle_training : tracks _handle_training.
Proof.
  intros w r w' E. unfold _handle_training in E.
  unfold bind at 1, get_self, gets in E.
  destruct (_training_model (self w)) eqn:Ht.
  - destruct (_train_each_step (self w)).
    + eapply _train_model_evolves; eauto.
    + injection E as _ <-. apply evolves_refl.
  - injection E as _ <-. apply evolves_refl.
Qed.

Lemma tracks_handle_collision (wc : bool) : tracks (_handle_collision wc).
Proof.
  intros w r w' E. destruct wc; [|injection E as _ <-; apply evolves_refl].
  unfold _handle_collision in E.
  unfold bind at 1, get_self at 1, gets at 1 in E.
  unfold bind at 1, lift at 1 in E.
  destruct (py_mod _ _) as [md|e] in E;
    [|injection E as _ <-; apply evolves_refl].
  unfold bind at 1 in E.
  destruct ((if md =? 0 then _save_model_increment else ret tt) w)
    as [[[]|e] w1] eqn:E1.
  2:{ destruct (md =? 0); discriminate. }
  assert (Hs1 : self w1 = self w).
  { destruct (md =? 0); injection E1 as <-; reflexivity. }
  unfold bind at 1, get_self at 1, gets at 1 in E. rewrite Hs1 in E.
  unfold bind at 1 in E. rewrite <- Hs1.
  destruct (_training_model (self w)) eqn:Ht.
  - destruct (_train_model w1) as [[[]|e] w2] eqn:ET.
    + apply _train_model_evolves in ET; [|congruence].
      injection E as _ <-. eapply evolves_trans; [exact ET|].
      now apply evolves_field.
    + injection E as _ <-. apply _train_model_evolves in ET; congruence.
  - injection E as _ <-. now apply evolves_field.
Qed.

Lemma tracks_handle_reward (rew : Z) (rc : bool) :
  tracks (_handle_reward rew rc).
Proof.
  intros w r w' E.
  destruct (_handle_reward_run rew rc w)
    as (w2 & E2 & _ & Hcf & _ & _ & _ & Hmem & Hmo & _).
  rewrite E2 in E. injection E as _ <-. now apply evolves_field.
Qed.

Lemma tracks_get_reward (rc wc : bool) : tracks (_get_reward rc wc).
Proof.
  apply tracks_same_self. intros w. now rewrite _get_reward_run.
Qed.

Lemma tracks_handle_experience (rew : Z) (x : tensor) :
  tracks (_handle_experience rew x).
Proof.
  unfold _handle_experience.
  apply tracks_bind; [apply tracks_get_self|intros a].
  apply tracks_bind.
  - destruct (_current_state a); [apply tracks_memory_add|apply tracks_ret].
  - intros _. apply tracks_set_self. intros a0. now apply evolves_field.
Qed.

Lemma tracks_decision_policy (x : tensor) : tracks (decision_policy x).
Proof.
  unfold decision_policy.
  apply tracks_bind; [apply tracks_model_predict|intros q].
  apply tracks_bind; [apply tracks_lift|intros i].
  apply tracks_bind; [now apply tracks_same_self|intros r].
  apply tracks_bind; [apply tracks_get_self|intros a].
  apply tracks_bind.
  - destruct (_ && _); [|apply tracks_ret].
    unfold random_choice. destruct (_ <=? 0); [apply tracks_raise|].
    apply tracks_bind; [now apply tracks_same_self|intros c].
    apply tracks_ret.
  - intros act. apply tracks_bind; [|intros _; apply tracks_ret].
    apply tracks_set_self. intros a0. now apply evolves_field.
Qed.

Lemma tracks_request_restart : tracks _request_restart.
Proof.
  unfold _request_restart.
  apply tracks_bind; [apply tracks_get_self|intros a].
  apply tracks_bind;
    [destruct (_debug a); [apply tracks_emit|apply tracks_ret]|intros _].
  apply tracks_bind;
    [destruct (_simulator a); [apply tracks_emit|apply tracks_raise]
    |intros _].
  apply tracks_set_self. intros a0. now apply evolves_field.
Qed.

Lemma tracks_update (inputs : tensor) (rc wc : bool) :
  tracks (update inputs rc wc).
Proof.
  unfold update.
  apply tracks_bind; [apply tracks_get_self|intros a].
  apply tracks_bind;
    [destruct (_simulator a); [apply tracks_ret|apply tracks_raise]
    |intros _].
  apply tracks_bind; [apply tracks_get_reward|intros rew].
  apply tracks_bind; [apply tracks_handle_collision|intros _].
  apply tracks_bind; [apply tracks_handle_reward|intros shaped].
  apply tracks_bind; [apply tracks_handle_experience|intros _].
  apply tracks_bind; [apply tracks_handle_training|intros _].
  apply tracks_bind; [apply tracks_decision_policy|intros chosen].
  apply tracks_bind; [apply tracks_emit|intros _].
  apply tracks_bind; [|intros _; apply tracks_ret].
  destruct (snd shaped); [apply tracks_request_restart|apply tracks_ret].
Qed.

Lemma tracks_run_ticks (ticks : list (tensor * bool * bool)) :
  tracks (run_ticks ticks).
Proof.
  induction ticks as [|[[i rc] wc] ticks IH]; [apply tracks_ret|].
  cbn [run_ticks].
  apply tracks_bind; [apply tracks_update|intros act].
  apply tracks_bind; [exact IH|intros acts; apply tracks_ret].
Qed.

End TickInvariants.

Section TickInvariantClaims.

Context {B : Backend}.

Lemma run_ops_max_size (ops : list mem_op) :
  forall m, _max_size (run_ops ops m) = _max_size m.
Proof.
  induction ops as [|o ops IH]; intros m; [reflexivity|].
  change (run_ops (o :: ops) m) with (run_ops ops (apply_op m o)).
  now rewrite IH, apply_op_max_size.
Qed.

(** X7: the replay memory of an agent built with [replay_mem_max >= 0]
    never grows past it: after any run of ticks, completed or stopped by an
    exception, its size is at most [replay_mem_max], its counter agrees
    with its list and its capacity is unchanged. *)
Theorem agent_memory_stays_within_capacity
    (ticks : list (tensor * bool * bool)) (w : World)
    (replay_mem_max : Z) (before : list mem_op) :
  0 <= replay_mem_max ->
  replay_memory (self w)
  = run_ops before (ReplayMemory_init (Some replay_mem_max)) ->
  let m := replay_memory (self (snd (run_ticks ticks w))) in
  _size m <= replay_mem_max
  /\ _size m = Z.of_nat (length (_arr m))
  /\ _max_size m = Some replay_mem_max.
Proof.
  intros Hk Hm m.
  destruct (run_ticks ticks w) as [r w'] eqn:E.
  apply tracks_run_ticks in E. destruct E as (_ & (ops & Hops) & _).
  subst m. cbn [snd]. rewrite Hops, Hm, <- run_ops_app. splits.
  - now apply run_ops_bounded.
  - now apply run_ops_size_ok.
  - now rewrite run_ops_max_size.
Qed.

(** X8: no tick, whatever its outcome, writes the configuration of the
    agent: shape, number of actions, simulator, discount, epsilon, batch
    size, save period, training flags, debug flag and reward table are
    after any run what they were before. *)
Theorem ticks_never_change_the_configuration
    (ticks : list (tensor * bool * bool)) (w : World) :
  config (self (snd (run_ticks ticks w))) = config (self w).
Proof.
  destruct (run_ticks ticks w) as [r w'] eqn:E.
  apply tracks_run_ticks in E. now destruct E as (Hc & _).
Qed.

(** X9: an agent that is not training never touches its model: after any
    run of ticks, whatever the collisions and the outcome, the weights are
    those it started with. *)
Theorem not_training_keeps_the_model
    (ticks : list (tensor * bool * bool)) (w : World) :
  _training_model (self w) = false ->
  _model (self (snd (run_ticks ticks w))) = _model (self w).
Proof.
  intros H. destruct (run_ticks ticks w) as [r w'] eqn:E.
  apply tracks_run_ticks in E. destruct E as (_ & _ & Hm). now apply Hm.
Qed.

(** X10: a tick on an agent without simulator raises [AssertionError] and
    changes nothing: no reward is shaped, nothing is stored, no random
    number is drawn and nothing is logged. *)
Theorem tick_without_simulator_raises
    (inputs : tensor) (rc wc : bool) (w : World) :
  _simulator (self w) = None ->
  update inputs rc wc w = (Raise AssertionError, w).
Proof.
  intros H. unfold update, bind, get_self, gets. cbn. now rewrite H.
Qed.

(** X11: once the simulator is attached, a tick with a wall collision on
    an agent whose [save_after] is [None] raises [TypeError], and on one
    whose [save_after] is 0 raises [ZeroDivisionError]; in both cases the
    tick stops at the modulo and leaves the agent, the generator and the
    log untouched. *)
Theorem wall_collision_needs_a_save_period
    (inputs : tensor) (rc : bool) (w : World) (sim : Simulator) :
  _simulator (self w) = Some sim ->
  (_save_after (self w) = None ->
   update inputs rc true w = (Raise TypeError, w))
  /\ (_save_after (self w) = Some 0 ->
      update inputs rc true w = (Raise ZeroDivisionError, w)).
Proof.
  intros Hs. split; intros H;
    unfold update, bind, get_self, gets; cbn; rewrite Hs; cbn;
    unfold _handle_collision, bind, get_self, gets, lift, py_mod; cbn;
    now rewrite H.
Qed.

(** X12: a training pass with a negative [batch_size] raises [ValueError]
    when the tensors are allocated: the model is not fitted and nothing is
    logged, but the replay memory has been shuffled by then. *)
Theorem negative_batch_size_raises (w : World) :
  batch_size (self w) < 0 ->
  let out := _train_model w in
  fst out = Raise ValueError
  /\ trace (snd out) = trace w
  /\ _model (self (snd out)) = _model (self w)
  /\ replay_memory (self (snd out))
     = snd (get_random_experiences (hd [] (perms w)) (batch_size (self w))
              (replay_memory (self w))).
Proof.
  intros H.
  assert (E : _train_model w
              = (Raise ValueError,
                 with_self
                   (set_replay_memory
                      (snd (get_random_experiences (hd [] (perms w))
                              (batch_size (self w))
                              (replay_memory (self w))))
                      (self w))
                   (with_perms (tl (perms w)) w))).
  { unfold _train_model.
    unfold bind at 1, get_self at 1, gets at 1.
    rewrite (bind_run _ _ _ _ _ (memory_sample_run _ _)).
    unfold bind at 1, get_self at 1, gets at 1.
    cbn [self with_self with_perms set_replay_memory batch_size input_shape
         num_outputs].
    unfold bind at 1, lift at 1, np_zeros.
    destruct (Z.ltb_spec (batch_size (self w)) 0); [|lia].
    reflexivity. }
  cbv zeta. rewrite E. now splits.
Qed.

End TickInvariantClaims.

(** ** Completed ticks *)

Section CompletedTicks.

Context {B : Backend}.

Lemma stored_app (tr1 tr2 : list event) :
  stored (tr1 ++ tr2) = (stored tr1 ++ stored tr2)%list.
Proof.
  induction tr1 as [|e tr1 IH]; [reflexivity|].
  destruct e; cbn; rewrite IH; reflexivity.
Qed.

Lemma training_pass_stored (evs : list event) :
  training_pass evs -> stored evs = [].
Proof.
  intros (ps & X & Y & ->). rewrite stored_app. cbn. rewrite app_nil_r.
  induction ps; [reflexivity|exact IHps].
Qed.

(** What one completed tick hands to the replay memory. *)
Lemma update_stored (inputs : tensor) (rc wc : bool) (w w' : World) act :
  update inputs rc wc w = (Ok act, w') ->
  exists rew restart evs,
    trace w' = trace w ++ evs
    /\ shaped_log evs = [(rew, restart)]
    /\ stored evs
       = match _current_state (self w) with
         | Some s => [{| current_state := s;
                         current_action := _current_action (self w);
                         res_reward := rew;
                         next_state := expand_dims inputs |}]
         | None => []
         end
    /\ _current_state (self w') = Some (expand_dims inputs)
    /\ _current_action (self w') = Some act.
Proof.
  intros H. pose proof (update_shaped _ _ _ _ _ _ H) as Hlog.
  apply update_Ok in H. cbv zeta in H, Hlog.
  destruct H as (saves & train1 & train2 & q & Ht & Hsaves & Htr1 & Htr2 & _
                 & _ & Hcs & Hca & _).
  destruct Hlog as (evs & Ht' & Hlog & _).
  rewrite Ht in Ht'. apply app_inv_head in Ht'.
  destruct (Hlog [] eq_refl) as [Hs _]. rewrite app_nil_r in Hs.
  do 2 eexists. exists evs. split; [now rewrite Ht, Ht'|].
  split; [exact Hs|]. split; [|now split].
  rewrite <- Ht'.
  match goal with
  | |- stored (_ ++ _ ++ ?st ++ _ ++ _ ++ ?po)%list = _ =>
      set (store := st); set (post := po)
  end.
  assert (H0 : stored saves = []).
  { destruct wc; [|now subst].
    destruct Hsaves as (k & _ & _ & ->). now destruct (_ =? 0). }
  assert (H1 : stored train1 = []).
  { destruct (wc && _); [now apply training_pass_stored|now subst]. }
  assert (H2 : stored train2 = []).
  { destruct (_ && _) in Htr2; [now apply training_pass_stored|now subst]. }
  assert (H4 : stored post = []).
  { unfold post. destruct (negb rc && _); [|reflexivity].
    now destruct (_debug (self w)). }
  rewrite !stored_app, H0, H1, H2, H4. cbn [stored app].
  rewrite app_nil_r. unfold store.
  now destruct (_current_state (self w)).
Qed.

(** X13: with the reward table of [__init__] (wall -20, reward 20,
    other -2), the shaped reward a completed tick reports is one of 20, -2,
    -20, -22, -40 and -42, and a tick with a reward collision never asks
    for a restart. *)
Theorem shaped_reward_is_one_of_six
    (inputs : tensor) (rc wc : bool) (w w' : World) (act : nat) :
  _qlearn_params (self w)
  = {| wall := -20; snake_hit := -20; reward := 20; other := -2 |} ->
  update inputs rc wc w = (Ok act, w') ->
  exists evs rew restart,
    trace w' = trace w ++ evs
    /\ shaped_log evs = [(rew, restart)]
    /\ In rew [20; -2; -20; -22; -40; -42]
    /\ (rc = true -> restart = false).
Proof.
  intros Hp H. apply update_shaped in H. cbv zeta in H.
  destruct H as (evs & Ht & Hlog & _).
  destruct (Hlog [] eq_refl) as [Hs _]. rewrite app_nil_r in Hs.
  rewrite Hp in Hs. cbn [wall reward other] in Hs.
  do 3 eexists. split; [exact Ht|]. split; [exact Hs|].
  split.
  - destruct wc, rc, (_rewarded_currently (self w)); cbn [negb andb];
      try destruct (_ >=? _); cbn; auto 10.
  - intros ->. reflexivity.
Qed.

Lemma run_steps_bounded (ticks : list (tensor * bool * bool)) :
  forall (w w' : World) acts,
  0 <= _steps_without_reward (self w) ->
  run_ticks ticks w = (Ok acts, w') ->
  let area := fst (input_shape (self w)) * snd (input_shape (self w)) in
  0 <= _steps_without_reward (self w')
  /\ (ticks <> [] ->
      _steps_without_reward (self w') = 0
      \/ _steps_without_reward (self w') < area).
Proof.
  induction ticks as [|[[i rc] wc] ticks IH]; intros w w' acts H0 H area.
  - injection H as _ <-. split; [exact H0|congruence].
  - apply run_ticks_cons_Ok in H.
    destruct H as (act & w1 & acts' & E1 & E2 & _). cbn [fst snd] in E1.
    apply update_shaped in E1. cbv zeta in E1. fold area in E1.
    destruct E1 as (_ & _ & _ & Hcf & _ & Hst & _).
    pose proof (config_fields _ _ Hcf) as (Hsh & _).
    assert (H1 : 0 <= _steps_without_reward (self w1)
                 /\ (_steps_without_reward (self w1) = 0
                     \/ _steps_without_reward (self w1) < area)).
    { rewrite Hst. destruct rc; cbn [negb andb orb]; [lia|].
      destruct (Z.geb_spec (_steps_without_reward (self w) + 1) area); lia. }
    destruct H1 as [H1 H2].
    destruct (IH w1 w' acts' H1 E2) as [H3 H4]. rewrite Hsh in H4.
    split; [exact H3|]. intros _.
    destruct ticks as [|t ticks]; [|apply H4; discriminate].
    injection E2 as _ <-. exact H2.
Qed.

(** X14: the stagnation counter stays within the grid area: if it is not
    negative before a run of ticks, then after every completed run of at
    least one tick it is 0 or a positive number below width x height. *)
Theorem stagnation_counter_stays_below_the_area
    (ticks : list (tensor * bool * bool)) (w w' : World) (acts : list nat) :
  0 <= _steps_without_reward (self w) ->
  ticks <> [] ->
  run_ticks ticks w = (Ok acts, w') ->
  0 <= _steps_without_reward (self w')
  /\ (_steps_without_reward (self w') = 0
      \/ _steps_without_reward (self w')
         < fst (input_shape (self w)) * snd (input_shape (self w))).
Proof.
  intros H0 Hne H.
  destruct (run_steps_bounded ticks w w' acts H0 H) as [H1 H2].
  split; [exact H1|now apply H2].
Qed.

(** X15: the stored transitions chain up: the first tick of an agent
    without previous state stores nothing, and of two consecutive completed
    ticks the second stores exactly one experience, leading from the
    observation and the action of the first to its own observation, with
    the shaped reward it reports. *)
Theorem consecutive_ticks_store_the_transition
    (i1 i2 : tensor) (rc1 wc1 rc2 wc2 : bool) (w w1 w2 : World)
    (a1 a2 : nat) :
  update i1 rc1 wc1 w = (Ok a1, w1) ->
  update i2 rc2 wc2 w1 = (Ok a2, w2) ->
  (_current_state (self w) = None -> stored (trace w1) = stored (trace w))
  /\ exists rew restart evs,
       trace w2 = trace w1 ++ evs
       /\ shaped_log evs = [(rew, restart)]
       /\ stored evs = [{| current_state := expand_dims i1;
                           current_action := Some a1;
                           res_reward := rew;
                           next_state := expand_dims i2 |}].
Proof.
  intros H1 H2. apply update_stored in H1, H2.
  destruct H1 as (rew1 & b1 & evs1 & Ht1 & _ & Hst1 & Hcs1 & Hca1).
  destruct H2 as (rew2 & b2 & evs2 & Ht2 & Hs2 & Hst2 & _).
  split.
  - intros Hn. rewrite Hn in Hst1.
    now rewrite Ht1, stored_app, Hst1, app_nil_r.
  - exists rew2, b2, evs2. rewrite Hcs1, Hca1 in Hst2. now splits.
Qed.

End CompletedTicks.

(** ** The action, the checkpoint names and the training targets *)

Section ActionAndTraining.

Context {B : Backend}.

Lemma argmax_from_bound (l : list val) :
  forall best bi i, (bi < i)%nat ->
  (argmax_from best bi i l < i + length l)%nat.
Proof.
  induction l as [|v l IH]; intros best bi i H; cbn [argmax_from length].
  - lia.
  - destruct (vltb best v).
    + specialize (IH v i (S i)). lia.
    + specialize (IH best bi (S i)). lia.
Qed.

Lemma np_argmax_bound (q : list val) (i : nat) :
  np_argmax q = Ok i -> (i < length q)%nat.
Proof.
  destruct q as [|x tl]; [discriminate|]. cbn [np_argmax length].
  intros H. injection H as <-.
  pose proof (argmax_from_bound tl x 0%nat 1%nat). lia.
Qed.

Lemma decision_policy_range (x : tensor) (w w' : World) act q :
  decision_policy x w = (Ok (act, q), w') ->
  (act < length q)%nat
  \/ (0 < num_outputs (self w) /\ Z.of_nat act < num_outputs (self w)).
Proof.
  intros H. unfold decision_policy in H.
  rewrite (bind_run _ _ _ _ _ (model_predict_run _ _)) in H.
  unfold bind at 1, lift at 1 in H.
  destruct (np_argmax _) as [best|e] eqn:E in H; [|discriminate].
  apply np_argmax_bound in E.
  unfold bind at 1, draw_rand at 1 in H.
  unfold bind at 1, get_self, gets in H.
  cbn [self with_rands with_trace epsilon _training_model num_outputs] in H.
  destruct (vltb _ _ && _) in H.
  - unfold random_choice in H.
    destruct (Z.leb_spec (num_outputs (self w)) 0) in H; [discriminate|].
    cbn in H. injection H as <- <- <-. right. split; [lia|].
    assert (Hm : (hd 0%nat (choices w) mod Z.to_nat (num_outputs (self w))
                  < Z.to_nat (num_outputs (self w)))%nat)
      by (apply Nat.mod_upper_bound; lia).
    lia.
  - cbn in H. injection H as <- <- <-. now left.
Qed.

(** The selection of the action inside a completed tick. *)
Lemma update_decision (inputs : tensor) (rc wc : bool) (w w' : World) act :
  update inputs rc wc w = (Ok act, w') ->
  exists w4 w5 q,
    decision_policy (expand_dims inputs) w4 = (Ok (act, q), w5)
    /\ config (self w4) = config (self w)
    /\ q = predict (_model (self w4)) (expand_dims inputs).
Proof.
  intros H. unfold update in H.
  bind_inv H a w0 E0. injection E0 as <- <-.
  bind_inv H u0 w0 E0.
  assert (w0 = w) as ->
    by (destruct (_simulator (self w)); [now injection E0|discriminate]).
  clear E0.
  bind_inv H rew w1 E1. apply tracks_get_reward in E1.
  bind_inv H u2 w2 E2. apply tracks_handle_collision in E2.
  bind_inv H shaped w3 E3. apply tracks_handle_reward in E3.
  bind_inv H u4 w4 E4. apply tracks_handle_experience in E4.
  bind_inv H u5 w5 E5. apply tracks_handle_training in E5.
  bind_inv H chosen w6 E6. destruct chosen as [act' q].
  bind_inv H u7 w7 E7. bind_inv H u8 w8 E8. injection H as <- <-.
  exists w5, w6, q. split; [exact E6|]. split.
  - destruct E1 as (C1 & _), E2 as (C2 & _), E3 as (C3 & _),
      E4 as (C4 & _), E5 as (C5 & _). congruence.
  - apply decision_policy_Ok in E6. now destruct E6 as (-> & _).
Qed.

(** X16: when the model predicts [num_outputs] values for every
    observation, the action a completed tick returns is a valid direction,
    from 0 up to [num_outputs] excluded, whether it was chosen greedily or
    at random. *)
Theorem returned_action_is_a_valid_direction
    (inputs : tensor) (rc wc : bool) (w w' : World) (act : nat) :
  (forall m x, length (predict m x) = Z.to_nat (num_outputs (self w))) ->
  update inputs rc wc w = (Ok act, w') ->
  0 <= Z.of_nat act < num_outputs (self w).
Proof.
  intros Hlen H. apply update_decision in H.
  destruct H as (w4 & w5 & q & H & Hcf & Hq).
  apply decision_policy_range in H.
  assert (Hn : num_outputs (self w4) = num_outputs (self w))
    by (unfold config in Hcf; congruence).
  rewrite Hn in H. subst q. rewrite Hlen in H. lia.
Qed.

Lemma string_length_append (s t : string) :
  String.length (s ++ t) = (String.length s + String.length t)%nat.
Proof. induction s as [|c s IH]; cbn; [reflexivity|now rewrite IH]. Qed.

Lemma string_append_inv_head (s a b : string) :
  (s ++ a = s ++ b)%string -> a = b.
Proof.
  induction s as [|c s IH]; cbn; intros H; [exact H|].
  injection H as H. now apply IH.
Qed.

Lemma string_append_inv_tail (t : string) :
  forall a b : string, (a ++ t = b ++ t)%string -> a = b.
Proof.
  induction a as [|c a IH]; intros [|d b] H; cbn in H.
  - reflexivity.
  - apply (f_equal String.length) in H. cbn in H.
    rewrite string_length_append in H. lia.
  - apply (f_equal String.length) in H. cbn in H.
    rewrite string_length_append in H. lia.
  - injection H as -> H. f_equal. now apply IH.
Qed.

Lemma str_inj (a b : Z) : str a = str b -> a = b.
Proof.
  unfold str. intros H.
  apply (f_equal NilEmpty.int_of_string) in H.
  rewrite !NilEmpty.isi in H. injection H as H.
  apply (f_equal Z.of_int) in H. now rewrite !DecimalZ.of_to in H.
Qed.

(** X17: incremental checkpoints never overwrite each other: the file
    name [_save_model_increment] saves under determines the collision
    count, so that two saves under the same name were made at the same
    count. *)
Theorem checkpoint_name_determines_the_count (w1 w2 : World) (name : string) :
  saved (trace (snd (_save_model_increment w1)))
  = (saved (trace w1) ++ [name])%list ->
  saved (trace (snd (_save_model_increment w2)))
  = (saved (trace w2) ++ [name])%list ->
  _collision_count (self w1) = _collision_count (self w2).
Proof.
  rewrite !_save_model_increment_run. cbn [snd trace with_trace].
  rewrite !saved_app. cbn [saved].
  intros H1 H2. apply app_inv_head in H1, H2.
  injection H1 as H1. injection H2 as H2. rewrite <- H2 in H1.
  apply (string_append_inv_head "./src/assets/models/model_"
           (str (_collision_count (self w1)) ++ ".weights.h5")
           (str (_collision_count (self w2)) ++ ".weights.h5")) in H1.
  apply string_append_inv_tail in H1.
  now apply str_inj.
Qed.

Lemma setitem_same {A : Type} (i : nat) (x : A) (l l' : list A) :
  setitem i x l = Ok l' -> nth_error l' i = Some x.
Proof.
  revert i l'. induction l as [|a l IH]; intros i l' H; [discriminate|].
  destruct i as [|i]; cbn in H.
  - now injection H as <-.
  - destruct (setitem i x l) as [tl'|e] eqn:E; [|discriminate].
    injection H as <-. cbn. eapply IH, E.
Qed.

(** The rows a completed loop of [_train_model] has written. *)
Lemma train_rows_written (batch : list Experience) :
  forall i X Y w X' Y' w',
  train_rows i batch X Y w = (Ok (X', Y'), w') ->
  forall j e, nth_error batch j = Some e ->
  let cur := np_array (current_state e) in
  nth_error X' (i + j) = Some cur
  /\ exists best row,
       np_max (predict (_model (self w)) (np_array (next_state e))) = Ok best
       /\ assign_action (current_action e)
            (vadd (vofZ (res_reward e)) (vmul (y (self w)) best))
            (predict (_model (self w)) cur) = Ok row
       /\ nth_error Y' (i + j) = Some row.
Proof.
  induction batch as [|e0 batch IH]; intros i X Y w X' Y' w' H j e Hj cur.
  - destruct j; discriminate.
  - cbn [train_rows] in H.
    rewrite (bind_run _ _ _ _ _ (model_predict_run _ _)) in H.
    rewrite (bind_run _ _ _ _ _ (model_predict_run _ _)) in H.
    unfold bind, lift, get_self, gets in H. cbn in H.
    destruct (np_max _) as [best|err] eqn:Eb in H; [|discriminate].
    destruct (assign_action _ _ _) as [q_row|err] eqn:Eq in H;
      [|discriminate].
    destruct (setitem i _ X) as [X1|err] eqn:EX in H; [|discriminate].
    destruct (setitem i _ Y) as [Y1|err] eqn:EY in H; [|discriminate].
    destruct j as [|j].
    + injection Hj as <-. apply train_rows_Ok in H.
      destruct H as (_ & _ & Hrows).
      destruct (Hrows i) as [HX HY]; [lia|].
      rewrite Nat.add_0_r, HX, HY.
      rewrite (setitem_same _ _ _ _ EX), (setitem_same _ _ _ _ EY).
      split; [reflexivity|]. now exists best, q_row.
    + cbn [nth_error] in Hj.
      destruct (IH _ _ _ _ _ _ _ H j e Hj) as (HX & best' & row & H1 & H2 & H3).
      cbn [self with_trace] in H1, H2.
      replace (i + S j)%nat with (S i + j)%nat by lia.
      split; [exact HX|]. now exists best', row.
Qed.

(** X18: in a completed training pass, the row fitted for a sampled
    experience is the model's prediction for its state with one entry
    replaced: the entry of the action taken holds the reward plus the
    discounted greatest predicted value of the next state, and every other
    entry is the prediction itself; the state fitted beside it is the
    experience's own. *)
Theorem td_target_replaces_one_entry (w w' : World) :
  _train_model w = (Ok tt, w') ->
  let a := self w in
  let sampled := fst (get_random_experiences (hd [] (perms w)) (batch_size a)
                        (replay_memory a)) in
  exists ps X Y,
    trace w' = trace w ++ map EvPredict ps ++ [EvFit X Y]
    /\ forall j e act,
         nth_error sampled j = Some e -> current_action e = Some act ->
         let prediction := predict (_model a) (np_array (current_state e)) in
         nth_error X j = Some (np_array (current_state e))
         /\ exists best row,
              np_max (predict (_model a) (np_array (next_state e))) = Ok best
              /\ nth_error Y j = Some row
              /\ length row = length prediction
              /\ nth_error row act
                 = Some (vadd (vofZ (res_reward e)) (vmul (y a) best))
              /\ forall k, k <> act ->
                   nth_error row k = nth_error prediction k.
Proof.
  intros H a sampled. unfold _train_model in H.
  unfold bind at 1, get_self at 1, gets at 1 in H.
  rewrite (bind_run _ _ _ _ _ (memory_sample_run _ _)) in H.
  unfold bind at 1, get_self at 1, gets at 1 in H.
  cbn [self with_self with_perms set_replay_memory batch_size input_shape
       num_outputs] in H.
  fold a in H. fold sampled in H.
  set (w1 := with_self _ _) in H.
  assert (Hw1 : trace w1 = trace w /\ _model (self w1) = _model a
                /\ y (self w1) = y a) by now splits.
  clearbody w1. destruct Hw1 as (Htr & Hm & Hy).
  unfold bind at 1, lift at 1 in H.
  destruct (np_zeros _ _ _) as [X0|err] in H; [|discriminate].
  unfold bind at 1, lift at 1 in H.
  destruct (np_zeros _ _ _) as [Y0|err] in H; [|discriminate].
  unfold bind at 1 in H.
  destruct (train_rows _ _ _ _ _) as [[[X1 Y1]|err] w2] eqn:ET in H;
    [|discriminate].
  pose proof (train_rows_frame _ _ _ _ _ _ _ ET) as (_ & _ & ps & Hp).
  cbn in H. injection H as <-.
  cbn [trace with_self with_trace].
  exists ps, X1, Y1. split; [now rewrite Hp, Htr, <- app_assoc|].
  intros j e act Hj Hact. cbv zeta.
  destruct (train_rows_written _ _ _ _ _ _ _ _ ET j e Hj)
    as (HX & best & row & Hb & Hrow & HY).
  cbn [Nat.add] in HX, HY. rewrite Hm, Hy in *.
  split; [exact HX|]. exists best, row.
  split; [exact Hb|]. split; [exact HY|].
  rewrite Hact in Hrow. cbn [assign_action] in Hrow.
  split; [eapply setitem_length, Hrow|].
  split; [eapply setitem_same, Hrow|].
  intros k Hk. eapply setitem_other; eauto.
Qed.

(** X19: a training pass, whatever its outcome, touches nothing but the
    order of the replay memory, the model and the log: the counters, flags,
    previous state and action of the agent are unchanged, no [rand],
    [choice] or clock reading is used up, the log receives calls to the
    model only, and the memory holds the same experiences, rearranged. *)
Theorem training_touches_memory_order_and_model_only (w : World) :
  let out := _train_model w in
  let m := replay_memory (self w) in
  let m' := replay_memory (self (snd out)) in
  control_state (self (snd out)) = control_state (self w)
  /\ rands (snd out) = rands w
  /\ choices (snd out) = choices w
  /\ times (snd out) = times w
  /\ (exists evs, trace (snd out) = trace w ++ evs
                  /\ Forall model_event evs)
  /\ Permutation (_arr m') (_arr m)
  /\ _size m' = _size m
  /\ _max_size m' = _max_size m.
Proof.
  intros out m m'. destruct (_train_model w) as [r w'] eqn:E.
  subst out m m'. cbn [snd].
  pose proof (_train_model_memory _ _ _ E) as [Hm _].
  apply _train_model_frame in E.
  destruct E as (Hc & Hr & Hch & Ht & Hev).
  rewrite Hm. unfold get_random_experiences. cbn [snd _arr _size _max_size].
  splits; auto. apply shuffle_Permutation.
Qed.

End ActionAndTraining.

(** ** Concrete runs of the further properties *)

Section FurtherRuns.

#[local] Existing Instance toy.

(** Witness of X7: capacity 1, four ticks with training at each step. *)
Lemma agent_memory_stays_within_capacity_witness :
  let w := toy_world (toy_agent 2 1 (Some 5) true true) in
  let ticks := [(7, false, false); (8, true, false); (9, false, true);
                (10, false, false)] in
  0 <= 1
  /\ replay_memory (self w) = run_ops [] (ReplayMemory_init (Some 1))
  /\ let m := replay_memory (self (snd (run_ticks ticks w))) in
     _size m <= 1
     /\ _size m = Z.of_nat (length (_arr m))
     /\ _max_size m = Some 1.
Proof.
  intros w ticks. split; [lia|]. split; [reflexivity|].
  apply (agent_memory_stays_within_capacity (B := toy) ticks w 1 []);
    [lia|reflexivity].
Defined.

(** Witness of X9: an agent that does not train, two wall collisions. *)
Lemma not_training_keeps_the_model_witness :
  let w := toy_world (toy_agent 2 10 (Some 5) false true) in
  let ticks := [(7, false, true); (8, false, true)] in
  _training_model (self w) = false
  /\ _model (self (snd (run_ticks ticks w))) = _model (self w).
Proof.
  intros w ticks. split; [reflexivity|].
  apply (not_training_keeps_the_model (B := toy) ticks w). reflexivity.
Defined.

(** Witness of X10: an agent as [__init__] leaves it. *)
Lemma tick_without_simulator_raises_witness :
  let w := toy_world
             (QLearningAgent_init 1 1 (10, 10) 3 2 10 (Some 5) true false
                false 0%nat 0) in
  _simulator (self w) = None
  /\ update 7 false false w = (Raise AssertionError, w).
Proof.
  intros w. split; [reflexivity|].
  apply (tick_without_simulator_raises (B := toy) 7 false false w).
  reflexivity.
Defined.

(** Witness of X11: [save_after = 0]. *)
Lemma wall_collision_needs_a_save_period_witness :
  let w := toy_world (toy_agent 2 10 (Some 0) true false) in
  _simulator (self w) = Some simulator_handle
  /\ _save_after (self w) = Some 0
  /\ update 7 false true w = (Raise ZeroDivisionError, w).
Proof.
  intros w. split; [reflexivity|]. split; [reflexivity|].
  apply (proj2 (wall_collision_needs_a_save_period (B := toy) 7 false w
                  simulator_handle eq_refl)).
  reflexivity.
Defined.

(** Witness of X12: [batch_size = -1]. *)
Lemma negative_batch_size_raises_witness :
  let w := toy_world (toy_agent (-1) 10 (Some 5) true false) in
  batch_size (self w) < 0
  /\ fst (_train_model w) = Raise ValueError
  /\ trace (snd (_train_model w)) = trace w.
Proof.
  intros w. split; [reflexivity|].
  destruct (negative_batch_size_raises (B := toy) w eq_refl)
    as (H1 & H2 & _).
  split; [exact H1|exact H2].
Defined.

(** Witness of X13: a wall collision met while camping on a reward. *)
Lemma shaped_reward_is_one_of_six_witness :
  let w := toy_world
             (set_rewarded_currently true
                (toy_agent 2 10 (Some 5) true false)) in
  _qlearn_params (self w)
  = {| wall := -20; snake_hit := -20; reward := 20; other := -2 |}
  /\ update 7 true true w = (Ok 1%nat, snd (update 7 true true w))
  /\ exists evs rew restart,
       trace (snd (update 7 true true w)) = trace w ++ evs
       /\ shaped_log evs = [(rew, restart)]
       /\ In rew [20; -2; -20; -22; -40; -42]
       /\ (true = true -> restart = false).
Proof.
  intros w.
  assert (Hrun : update 7 true true w
                 = (Ok 1%nat, snd (update 7 true true w)))
    by (vm_compute; reflexivity).
  split; [reflexivity|]. split; [exact Hrun|].
  exact (shaped_reward_is_one_of_six (B := toy) 7 true true w _ 1%nat
           eq_refl Hrun).
Defined.

(** Witness of X14: three ticks on a 2 x 1 grid. *)
Lemma stagnation_counter_stays_below_the_area_witness :
  let w := toy_world
             (set_simulator simulator_handle
                (QLearningAgent_init 1 1 (2, 1) 3 2 10 (Some 5) true false
                   false 0%nat 0)) in
  let ticks := [(7, false, false); (8, false, false); (9, false, false)] in
  0 <= _steps_without_reward (self w)
  /\ ticks <> []
  /\ run_ticks ticks w = (Ok (repeat 1%nat 3), snd (run_ticks ticks w))
  /\ 0 <= _steps_without_reward (self (snd (run_ticks ticks w)))
  /\ (_steps_without_reward (self (snd (run_ticks ticks w))) = 0
      \/ _steps_without_reward (self (snd (run_ticks ticks w))) < 2 * 1).
Proof.
  intros w ticks.
  assert (Hrun : run_ticks ticks w
                 = (Ok (repeat 1%nat 3), snd (run_ticks ticks w)))
    by (vm_compute; reflexivity).
  assert (H0 : 0 <= _steps_without_reward (self w)) by (cbn; lia).
  assert (Hne : ticks <> []) by discriminate.
  split; [exact H0|]. split; [exact Hne|]. split; [exact Hrun|].
  exact (stagnation_counter_stays_below_the_area (B := toy) ticks w _ _
           H0 Hne Hrun).
Defined.

(** Witness of X15: the first two ticks of an agent. *)
Lemma consecutive_ticks_store_the_transition_witness :
  let w := toy_world (toy_agent 2 10 (Some 5) true false) in
  let w1 := snd (update 7 false false w) in
  let w2 := snd (update 8 true false w1) in
  update 7 false false w = (Ok 1%nat, w1)
  /\ update 8 true false w1 = (Ok 1%nat, w2)
  /\ stored (trace w1) = stored (trace w)
  /\ exists rew restart evs,
       trace w2 = trace w1 ++ evs
       /\ shaped_log evs = [(rew, restart)]
       /\ stored evs = [{| current_state := expand_dims 7;
                           current_action := Some 1%nat;
                           res_reward := rew;
                           next_state := expand_dims 8 |}].
Proof.
  intros w w1 w2.
  assert (H1 : update 7 false false w = (Ok 1%nat, w1))
    by (vm_compute; reflexivity).
  assert (H2 : update 8 true false w1 = (Ok 1%nat, w2))
    by (vm_compute; reflexivity).
  split; [exact H1|]. split; [exact H2|].
  destruct (consecutive_ticks_store_the_transition (B := toy)
              7 8 false false true false w w1 w2 1%nat 1%nat H1 H2)
    as [Hfirst Hsecond].
  split; [apply Hfirst; reflexivity|exact Hsecond].
Defined.

(** Witness of X16: the model of the small backend predicts three values,
    for three actions; a tick that explores. *)
Lemma returned_action_is_a_valid_direction_witness :
  let w := {| self := toy_agent 2 10 (Some 5) true false;
              perms := []; rands := [5]; choices := [8%nat]; times := [];
              trace := [] |} in
  (forall m x, length (predict m x) = Z.to_nat (num_outputs (self w)))
  /\ update 7 false false w = (Ok 2%nat, snd (update 7 false false w))
  /\ 0 <= Z.of_nat 2 < num_outputs (self w).
Proof.
  intros w.
  assert (Hlen : forall m x,
            length (predict m x) = Z.to_nat (num_outputs (self w)))
    by (intros m x; reflexivity).
  assert (Hrun : update 7 false false w
                 = (Ok 2%nat, snd (update 7 false false w)))
    by (vm_compute; reflexivity).
  split; [exact Hlen|]. split; [exact Hrun|].
  exact (returned_action_is_a_valid_direction (B := toy) 7 false false w _
           2%nat Hlen Hrun).
Defined.

(** Witness of X17: two agents at the collision count 5. *)
Lemma checkpoint_name_determines_the_count_witness :
  let w1 := toy_world
              (set_collision_count 5 (toy_agent 2 10 (Some 5) true false)) in
  let w2 := toy_world
              (set_collision_count 5 (toy_agent 4 20 (Some 5) false false)) in
  saved (trace (snd (_save_model_increment w1)))
  = (saved (trace w1) ++ ["./src/assets/models/model_5.weights.h5"%string])%list
  /\ saved (trace (snd (_save_model_increment w2)))
     = (saved (trace w2)
          ++ ["./src/assets/models/model_5.weights.h5"%string])%list
  /\ _collision_count (self w1) = _collision_count (self w2).
Proof.
  intros w1 w2.
  assert (H1 : saved (trace (snd (_save_model_increment w1)))
               = (saved (trace w1)
                    ++ ["./src/assets/models/model_5.weights.h5"%string])%list)
    by reflexivity.
  assert (H2 : saved (trace (snd (_save_model_increment w2)))
               = (saved (trace w2)
                    ++ ["./src/assets/models/model_5.weights.h5"%string])%list)
    by reflexivity.
  split; [exact H1|]. split; [exact H2|].
  exact (checkpoint_name_determines_the_count (B := toy) w1 w2 _ H1 H2).
Defined.

(** Witness of X18: a pass over a memory of two experiences. *)
Lemma td_target_replaces_one_entry_witness :
  let w := toy_world
             (set_replay_memory
                (run_ops [OpAdd ex1; OpAdd ex2] (ReplayMemory_init (Some 10)))
                (toy_agent 2 10 (Some 5) true false)) in
  _train_model w = (Ok tt, snd (_train_model w))
  /\ exists ps X Y,
       trace (snd (_train_model w))
       = trace w ++ map EvPredict ps ++ [EvFit X Y]
       /\ nth_error X 1 = Some 12
       /\ nth_error Y 1 = Some [12; 20 + 1 * 26; 1].
Proof.
  intros w.
  assert (Hrun : _train_model w = (Ok tt, snd (_train_model w)))
    by (vm_compute; reflexivity).
  split; [exact Hrun|].
  destruct (td_target_replaces_one_entry (B := toy) w _ Hrun)
    as (ps & X & Y & Ht & Hrows).
  exists ps, X, Y. split; [exact Ht|].
  destruct (Hrows 1%nat ex2 1%nat eq_refl eq_refl)
    as (HX & best & row & Hb & HY & Hlen & Hact & Hother).
  split; [exact HX|].
  injection Hb as <-. rewrite HY. f_equal.
  destruct row as [|r0 [|r1 [|r2 [|r3 row]]]]; try discriminate Hlen.
  injection Hact as ->.
  pose proof (Hother 0%nat ltac:(discriminate)) as H0.
  pose proof (Hother 2%nat ltac:(discriminate)) as H2.
  injection H0 as ->. injection H2 as ->. reflexivity.
Defined.

End FurtherRuns.
